(** * Watchdog supervisors: a shallow embedding and its properties

    The repository holds two supervisors of the worker script [main.py] and a
    demonstration table viewer:

    - [watchdog_monitor.py]  (class [WatchdogMonitor]), module [Monitor];
    - [watchdog_guardian.py] (class [WatchdogGuardian]), module [Guardian];
    - [file_status_viewer.py], module [Viewer].

    Modelling conventions.
    - Wall-clock readings ([time.time()], [datetime.now()]) are integers [Z],
      counted in seconds; one hour is [3600].  The rounding of Python floats
      is not modelled.
    - Everything the operating system decides (what a process-table scan
      returns, whether [Popen] raises, whether a process exits after a
      termination request, when an interrupt arrives) is an explicit
      environment record handed to the function that consults it.
    - Effects are recorded as a trace of [event]s returned next to the new
      state.  Calls to the log sink are not part of the trace and are assumed
      not to raise.
    - The set of live processes is the list [live] of a [world]. *)

From Stdlib Require Import List ZArith String Ascii Bool Lia Sorted DecimalString
  Permutation.
Import ListNotations.
Open Scope string_scope.
Open Scope list_scope.
Open Scope Z_scope.
Set Warnings "-register-all".

(** ** Shared vocabulary *)

Definition pid := Z.

(** Observable actions of a supervisor. *)
Inductive event :=
| EvSleep (secs : Z)                      (* time.sleep(secs) *)
| EvPopen (cmd : list string)             (* subprocess.Popen(cmd, ...) *)
| EvTerminate (p : pid)                   (* proc.terminate() *)
| EvWait (p : pid) (timeout : Z)          (* proc.wait(timeout=...) *)
| EvKill (p : pid)                        (* proc.kill() *)
| EvNotify (success : bool) (p : option pid).  (* send_restart_notification *)

Record world := { live : list pid }.

Definition is_live (p : pid) (w : world) : bool :=
  existsb (Z.eqb p) (live w).

Definition spawn (p : pid) (w : world) : world :=
  {| live := p :: live w |}.

Definition reap (p : pid) (w : world) : world :=
  {| live := filter (fun q => negb (Z.eqb p q)) (live w) |}.

(** [sys.executable] *)
Definition sys_executable : string := "python".

(** One hour, the width of the restart window ([timedelta(hours=1)]). *)
Definition one_hour : Z := 3600.

(** The list comprehension [[t for t in history if t > one_hour_ago]]. *)
Definition prune (now : Z) (history : list Z) : list Z :=
  filter (fun t => now - one_hour <? t) history.

(** Python's [len]. *)
Definition len {A} (l : list A) : Z := Z.of_nat (List.length l).

(** ** JSON values as [json.load] returns them *)

Inductive json :=
| JNull
| JBool (b : bool)
| JNum (n : Z)
| JStr (s : string)
| JArr (items : list json)
| JObj (fields : list (string * json)).

Fixpoint dict_lookup (k : string) (fields : list (string * json)) : option json :=
  match fields with
  | [] => None
  | (k', v) :: rest => if String.eqb k k' then Some v else dict_lookup k rest
  end.

(** [data.get(k, default)]: only a dict has [get]; on any other value the
    attribute lookup raises, which is [None] here. *)
Definition json_get (data : json) (k : string) (default : json) : option json :=
  match data with
  | JObj fields =>
      Some (match dict_lookup k fields with Some v => v | None => default end)
  | _ => None
  end.

(** The right operand of [current_time - last_timestamp]: numbers and
    booleans subtract, anything else raises [TypeError]. *)
Definition json_number (v : json) : option Z :=
  match v with
  | JNum n => Some n
  | JBool b => Some (if b then 1 else 0)
  | _ => None
  end.

(** State of the heartbeat file when it is opened and read. *)
Inductive heartbeat_file :=
| FileAbsent                  (* os.path.exists is False *)
| FileUnreadable              (* open or json.load raises *)
| FileJson (data : json).

(** ** Strings *)

Definition lower_ascii (c : ascii) : ascii :=
  let n := nat_of_ascii c in
  if (Nat.leb 65 n && Nat.leb n 90)%bool then ascii_of_nat (n + 32) else c.

Fixpoint lower (s : string) : string :=
  match s with
  | EmptyString => EmptyString
  | String c r => String (lower_ascii c) (lower r)
  end.

(** [sub in s] *)
Definition contains (sub s : string) : bool :=
  match sub with
  | EmptyString => true
  | _ => match index 0 sub s with Some _ => true | None => false end
  end.

(** ** watchdog_monitor.py *)

Module Monitor.

Record WatchdogMonitor := {
  main_script : string;
  check_interval : Z;
  heartbeat_timeout : Z;
  restart_count : Z;
  max_restarts_per_hour : Z;
  restart_history : list Z;
  running : bool
}.

(** [__init__] *)
Definition init : WatchdogMonitor :=
  {| main_script := "main.py";
     check_interval := 60;
     heartbeat_timeout := 120;
     restart_count := 0;
     max_restarts_per_hour := 5;
     restart_history := [];
     running := true |}.

Definition set_history (m : WatchdogMonitor) (h : list Z) : WatchdogMonitor :=
  {| main_script := main_script m;
     check_interval := check_interval m;
     heartbeat_timeout := heartbeat_timeout m;
     restart_count := restart_count m;
     max_restarts_per_hour := max_restarts_per_hour m;
     restart_history := h;
     running := running m |}.

Definition set_count (m : WatchdogMonitor) (c : Z) : WatchdogMonitor :=
  {| main_script := main_script m;
     check_interval := check_interval m;
     heartbeat_timeout := heartbeat_timeout m;
     restart_count := c;
     max_restarts_per_hour := max_restarts_per_hour m;
     restart_history := restart_history m;
     running := running m |}.

Definition set_running (m : WatchdogMonitor) (b : bool) : WatchdogMonitor :=
  {| main_script := main_script m;
     check_interval := check_interval m;
     heartbeat_timeout := heartbeat_timeout m;
     restart_count := restart_count m;
     max_restarts_per_hour := max_restarts_per_hour m;
     restart_history := restart_history m;
     running := b |}.

(** One entry met by [psutil.process_iter]. *)
Inductive proc_entry :=
| ProcInfo (p : pid) (cmdline : option (list string))
| ProcGone (p : pid)        (* raises psutil.NoSuchProcess when inspected *)
| ProcDenied (p : pid).     (* raises psutil.AccessDenied when inspected *)

Definition entry_matches (m : WatchdogMonitor) (cmdline : list string) : bool :=
  match cmdline with
  | c0 :: _ :: _ =>
      contains "python" (lower c0)
      && contains (main_script m) (String.concat " " cmdline)
  | _ => false
  end.

Fixpoint scan (m : WatchdogMonitor) (table : list proc_entry) : bool * option pid :=
  match table with
  | [] => (false, None)
  | ProcInfo p (Some cmdline) :: rest =>
      if entry_matches m cmdline then (true, Some p) else scan m rest
  | _ :: rest => scan m rest
  end.

(** [check_process_exists]; the table is [None] when the enumeration itself
    raises. *)
Definition check_process_exists (m : WatchdogMonitor)
    (table : option (list proc_entry)) : bool * option pid :=
  match table with
  | Some t => scan m t
  | None => (false, None)
  end.

Inductive heartbeat_msg :=
| HbFileMissing
| HbTimeout (elapsed : Z)
| HbNormal (elapsed : Z)
| HbReadFailed.

(** [check_heartbeat] *)
Definition check_heartbeat (m : WatchdogMonitor) (file : heartbeat_file)
    (current_time : Z) : bool * heartbeat_msg :=
  match file with
  | FileAbsent => (false, HbFileMissing)
  | FileUnreadable => (false, HbReadFailed)
  | FileJson data =>
      match json_get data "timestamp" (JNum 0) with
      | None => (false, HbReadFailed)
      | Some v =>
          match json_number v with
          | None => (false, HbReadFailed)
          | Some last_timestamp =>
              let elapsed := current_time - last_timestamp in
              if heartbeat_timeout m <? elapsed
              then (false, HbTimeout elapsed)
              else (true, HbNormal elapsed)
          end
      end
  end.

Inductive limit_msg :=
| LimitExceeded (count limit : Z)
| LimitNormal.

(** [check_restart_limit]; [current_time] is its [datetime.now()]. *)
Definition check_restart_limit (m : WatchdogMonitor) (current_time : Z)
    : bool * limit_msg * WatchdogMonitor :=
  let m1 := set_history m (prune current_time (restart_history m)) in
  if max_restarts_per_hour m1 <=? len (restart_history m1)
  then (false, LimitExceeded (len (restart_history m1)) (max_restarts_per_hour m1), m1)
  else (true, LimitNormal, m1).

(** How the attempt to end the old instance turns out. *)
Inductive stop_outcome :=
| StopExited          (* terminate sent, wait returned within the timeout *)
| StopTimedOut        (* terminate sent, wait raised TimeoutExpired *)
| StopNoProcess       (* psutil.Process(pid) raised: already gone *)
| StopRefused.        (* terminate raised *)

(** What the environment answers during one pass of the monitor loop. *)
Record env := {
  interrupt : bool;                       (* KeyboardInterrupt in this pass *)
  failure : bool;                         (* another exception in this pass *)
  table : option (list proc_entry);       (* scan made by the loop *)
  hb_file : heartbeat_file;
  time_now : Z;                           (* time.time() in check_heartbeat *)
  limit_now : Z;                          (* datetime.now() in check_restart_limit *)
  table_restart : option (list proc_entry); (* scan made by restart_main_program *)
  stop_result : stop_outcome;
  popen_result : option pid;              (* None: Popen (or its set-up) raises *)
  record_now : Z                          (* datetime.now() appended to the history *)
}.

(** The [try] block that ends the running instance. *)
Definition terminate_existing (p : pid) (o : stop_outcome) (w : world)
    : world * list event :=
  match o with
  | StopExited => (reap p w, [EvTerminate p; EvWait p 10])
  | StopTimedOut => (w, [EvTerminate p; EvWait p 10])
  | StopNoProcess => (reap p w, [])
  | StopRefused => (w, [EvTerminate p])
  end.

(** The argument list given to [Popen]. *)
Definition launch_cmd (m : WatchdogMonitor) : list string :=
  [sys_executable; main_script m].

(** [restart_main_program] *)
Definition restart_main_program (m : WatchdogMonitor) (w : world) (e : env)
    : bool * WatchdogMonitor * world * list event :=
  match check_restart_limit m (limit_now e) with
  | (false, _, m1) => (false, m1, w, [])
  | (true, _, m1) =>
      let '(w1, ev1) :=
        match check_process_exists m1 (table_restart e) with
        | (true, Some p) => terminate_existing p (stop_result e) w
        | _ => (w, [])
        end in
      match popen_result e with
      | Some p' =>
          let m2 := set_count m1 (restart_count m1 + 1) in
          let m3 := set_history m2 (restart_history m2 ++ [record_now e]) in
          (true, m3, spawn p' w1,
           ev1 ++ [EvPopen (launch_cmd m1); EvNotify true (Some p')])
      | None =>
          (false, m1, w1, ev1 ++ [EvPopen (launch_cmd m1); EvNotify false None])
      end
  end.

(** One pass through the body of [while self.running]. *)
Definition monitor_pass (m : WatchdogMonitor) (w : world) (e : env)
    : WatchdogMonitor * world * list event :=
  if interrupt e then (set_running m false, w, [])
  else if failure e then (m, w, [EvSleep (check_interval m)])
  else
    let '(process_exists, _) := check_process_exists m (table e) in
    let '(heartbeat_ok, _) := check_heartbeat m (hb_file e) (time_now e) in
    let need_restart := negb process_exists || negb heartbeat_ok in
    if need_restart then
      match restart_main_program m w e with
      | (true, m1, w1, evs) =>
          (m1, w1, evs ++ [EvSleep 30; EvSleep (check_interval m1)])
      | (false, m1, w1, evs) =>
          (m1, w1, evs ++ [EvSleep (check_interval m1)])
      end
    else (m, w, [EvSleep (check_interval m)]).

(** [monitor_loop]: passes are made while [running] holds. *)
Fixpoint monitor_loop (m : WatchdogMonitor) (w : world) (envs : list env)
    : WatchdogMonitor * world * list event :=
  match envs with
  | [] => (m, w, [])
  | e :: rest =>
      if running m then
        let '(m1, w1, ev1) := monitor_pass m w e in
        let '(m2, w2, ev2) := monitor_loop m1 w1 rest in
        (m2, w2, ev1 ++ ev2)
      else (m, w, [])
  end.

End Monitor.

(** ** watchdog_guardian.py *)

Module Guardian.

Record WatchdogGuardian := {
  watchdog_script : string;
  restart_delay : Z;
  max_restarts_per_hour : Z;
  restart_times : list Z;
  process : option pid          (* the Popen handle, by its process id *)
}.

(** [__init__] with the arguments that [main] passes (also the defaults). *)
Definition init : WatchdogGuardian :=
  {| watchdog_script := "main.py";
     restart_delay := 5;
     max_restarts_per_hour := 10;
     restart_times := [];
     process := None |}.

Definition set_times (g : WatchdogGuardian) (l : list Z) : WatchdogGuardian :=
  {| watchdog_script := watchdog_script g;
     restart_delay := restart_delay g;
     max_restarts_per_hour := max_restarts_per_hour g;
     restart_times := l;
     process := process g |}.

Definition set_process (g : WatchdogGuardian) (p : option pid) : WatchdogGuardian :=
  {| watchdog_script := watchdog_script g;
     restart_delay := restart_delay g;
     max_restarts_per_hour := max_restarts_per_hour g;
     restart_times := restart_times g;
     process := p |}.

(** [is_too_many_restarts]; [now] is its [datetime.datetime.now()]. *)
Definition is_too_many_restarts (g : WatchdogGuardian) (now : Z)
    : bool * WatchdogGuardian :=
  let g1 := set_times g (prune now (restart_times g)) in
  (max_restarts_per_hour g1 <=? len (restart_times g1), g1).

(** The list [cmd] built by [start_watchdog]. *)
Definition launch_cmd (g : WatchdogGuardian) : list string :=
  [sys_executable; watchdog_script g; "--auto-start"].

(** [start_watchdog]; [r] is [None] when [Popen] raises. *)
Definition start_watchdog (g : WatchdogGuardian) (w : world) (r : option pid)
    : bool * WatchdogGuardian * world * list event :=
  match r with
  | Some p => (true, set_process g (Some p), spawn p w, [EvPopen (launch_cmd g)])
  | None => (false, g, w, [EvPopen (launch_cmd g)])
  end.

(** Control points of [run]: the top of the outer loop, the top of the inner
    polling loop, and past the [break] of the interrupt handler. *)
Inductive phase := Starting | Running | Stopped.

Record loop_state := {
  self : WatchdogGuardian;
  restart_count : Z;
  at_phase : phase
}.

(** What the environment answers during one step of [run]. *)
Record env := {
  interrupt : bool;             (* KeyboardInterrupt raised in this step
                                   outside monitor_output: it reaches the
                                   handler of run *)
  interrupt_in_output : bool;   (* KeyboardInterrupt raised while
                                   monitor_output runs *)
  failure : bool;               (* another exception during this step *)
  popen_result : option pid;    (* None: Popen raises *)
  exit_code : option Z;         (* Some rc: the worker has ended with rc *)
  now : Z;                      (* datetime.now() appended to restart_times *)
  check_now : Z;                (* datetime.now() in is_too_many_restarts *)
  exits_on_terminate : bool     (* the worker ends within 2 s of terminate *)
}.

(** [monitor_output]: nothing is done without a process handle; otherwise
    at most one line of the worker's output is read and logged.  The body
    sits in a [try] with a bare [except: pass], so whatever is raised inside,
    a [KeyboardInterrupt] included ([interrupted]), is swallowed there: the
    call always returns, leaves the processes alone and adds nothing to the
    trace. *)
Definition monitor_output (g : WatchdogGuardian) (w : world)
    (interrupted : bool) : world * list event :=
  match process g with
  | None => (w, [])
  | Some _ => (w, [])          (* also when [interrupted] *)
  end.

(** The [except KeyboardInterrupt] block. *)
Definition on_interrupt (g : WatchdogGuardian) (w : world) (e : env)
    : world * list event :=
  match process g with
  | Some p =>
      if is_live p w then
        if exits_on_terminate e
        then (reap p w, [EvTerminate p; EvSleep 2])
        else (reap p w, [EvTerminate p; EvSleep 2; EvKill p])
      else (w, [])
  | None => (w, [])
  end.

Definition goto (s : loop_state) (g : WatchdogGuardian) (ph : phase) : loop_state :=
  {| self := g; restart_count := restart_count s; at_phase := ph |}.

(** The code that follows the inner loop once [poll] has given a return
    code. *)
Definition after_exit (s : loop_state) (w : world) (e : env)
    : loop_state * world * list event :=
  let g := self s in
  let count := restart_count s + 1 in
  let g1 := set_times g (restart_times g ++ [now e]) in
  match is_too_many_restarts g1 (check_now e) with
  | (true, g2) =>
      ({| self := set_times g2 []; restart_count := count; at_phase := Starting |},
       w, [EvSleep 3600])
  | (false, g2) =>
      ({| self := g2; restart_count := count; at_phase := Starting |},
       w, [EvSleep (restart_delay g2)])
  end.

(** One step of [run], from one control point to the next. *)
Definition run_step (s : loop_state) (w : world) (e : env)
    : loop_state * world * list event :=
  let g := self s in
  match at_phase s with
  | Stopped => (s, w, [])
  | Starting =>
      if interrupt e then
        let '(w1, evs) := on_interrupt g w e in (goto s g Stopped, w1, evs)
      else if failure e then (goto s g Starting, w, [EvSleep (restart_delay g)])
      else
        match start_watchdog g w (popen_result e) with
        | (false, g1, w1, evs) =>
            (goto s g1 Starting, w1, evs ++ [EvSleep (restart_delay g1)])
        | (true, g1, w1, evs) => (goto s g1 Running, w1, evs)
        end
  | Running =>
      if interrupt e then
        let '(w1, evs) := on_interrupt g w e in (goto s g Stopped, w1, evs)
      else if failure e then (goto s g Starting, w, [EvSleep (restart_delay g)])
      else
        match process g with
        | None => (goto s g Starting, w, [EvSleep (restart_delay g)])
        | Some p =>
            match exit_code e with
            | None =>
                let '(w1, evs) :=
                  monitor_output g w (interrupt_in_output e) in
                (s, w1, evs ++ [EvSleep 1])
            | Some _ => after_exit s (reap p w) e
            end
        end
  end.

(** [run]: steps are made until the loop is left. *)
Fixpoint run (s : loop_state) (w : world) (envs : list env)
    : loop_state * world * list event :=
  match envs with
  | [] => (s, w, [])
  | e :: rest =>
      let '(s1, w1, ev1) := run_step s w e in
      let '(s2, w2, ev2) := run s1 w1 rest in
      (s2, w2, ev1 ++ ev2)
  end.

Definition start_state (g : WatchdogGuardian) : loop_state :=
  {| self := g; restart_count := 0; at_phase := Starting |}.

End Guardian.

(** ** file_status_viewer.py *)

Module Viewer.

(** [str(n)] and [f"{n}"] for an integer. *)
Definition str (n : Z) : string := NilZero.string_of_int (Z.to_int n).

(** [format_duration], on a whole number of seconds. *)
Definition format_duration (seconds : Z) : string :=
  if seconds <? 60 then str seconds ++ "秒"
  else if seconds <? 3600 then
    let minutes := seconds / 60 in
    let secs := seconds mod 60 in
    str minutes ++ "分" ++ str secs ++ "秒"
  else
    let hours := seconds / 3600 in
    let minutes := (seconds mod 3600) / 60 in
    str hours ++ "時" ++ str minutes ++ "分".

(** A [datetime] is its number of seconds since midnight of some day 0. *)
Definition datetime := Z.

(** [timedelta(minutes=n)] in seconds. *)
Definition minutes (n : Z) : Z := 60 * n.

Definition two_digits (n : Z) : string :=
  if n <? 10 then "0" ++ str n else str n.

(** [d.strftime('%H:%M:%S')] *)
Definition strftime_hms (d : datetime) : string :=
  let t := d mod 86400 in
  two_digits (t / 3600) ++ ":" ++ two_digits ((t mod 3600) / 60)
    ++ ":" ++ two_digits (t mod 60).

(** One value of the [file_status] dict; a key that is absent is [None]. *)
Record status := {
  is_open : option bool;
  temp_files : option (list string);
  opened_at : option datetime;
  last_author : option string
}.

Definition get {A} (field : option A) (default : A) : A :=
  match field with Some v => v | None => default end.

(** [l[:limit]] *)
Definition slice_to {A} (limit : Z) (l : list A) : list A :=
  if 0 <=? limit then firstn (Z.to_nat limit) l
  else firstn (List.length l - Z.to_nat (- limit))%nat l.

Definition key (row : list string) : string := nth 2 row "".

(** [rows.sort(key=lambda x: x[2], reverse=True)]: a stable sort, largest
    key first. *)
Fixpoint insert_desc (row : list string) (sorted : list (list string))
    : list (list string) :=
  match sorted with
  | [] => [row]
  | r :: rest =>
      if String.ltb (key row) (key r) then r :: insert_desc row rest
      else row :: sorted
  end.

Fixpoint sort_desc (rows : list (list string)) : list (list string) :=
  match rows with
  | [] => []
  | r :: rest => insert_desc r (sort_desc rest)
  end.

Section Tables.

(** [os.path.basename] *)
Variable basename : string -> string.

(** The row that the loop of [show_closed_files_table] appends for one
    entry. *)
Definition closed_row (current_time : datetime) (file_path : string)
    (st : status) : list string :=
  let filename := basename file_path in
  let author := get (last_author st) "未知" in
  let opened := get (opened_at st) current_time in
  let closed_at := opened + minutes 20 in
  let duration := closed_at - opened in
  [filename; author; strftime_hms opened; strftime_hms closed_at;
   format_duration duration].

(** The list [closed_files] when the loop ends. *)
Fixpoint collect_closed (current_time : datetime)
    (file_status : list (string * status)) : list (list string) :=
  match file_status with
  | [] => []
  | (file_path, st) :: rest =>
      if negb (get (is_open st) true)
      then closed_row current_time file_path st :: collect_closed current_time rest
      else collect_closed current_time rest
  end.

(** [show_closed_files_table]: the rows handed to [print_table_row], in
    the order printed; none when the function returns early. *)
Definition show_closed_files_table (current_time : datetime)
    (file_status : list (string * status)) (limit : Z) : list (list string) :=
  let closed_files := collect_closed current_time file_status in
  match closed_files with
  | [] => []
  | _ => slice_to limit (sort_desc closed_files)
  end.

End Tables.

(** [create_mock_data] *)
Definition create_mock_data (current_time : datetime) : list (string * status) :=
  [ ("C:\Users\user\Desktop\Test\A.xlsx",
     {| is_open := Some true; temp_files := Some ["~$A.xlsx"];
        opened_at := Some (current_time - minutes 15);
        last_author := Some "Michael Cheng" |});
    ("C:\Users\user\Desktop\Test\B.xlsx",
     {| is_open := Some true; temp_files := Some ["~$B.xlsx"; "B.tmp"];
        opened_at := Some (current_time - minutes 8);
        last_author := Some "John Doe" |});
    ("C:\Users\user\Desktop\Test\Data_v3.xlsx",
     {| is_open := Some false; temp_files := Some [];
        opened_at := Some (current_time - 2 * 3600);
        last_author := Some "Jane Smith" |});
    ("C:\Users\user\Desktop\Test\Report.xlsx",
     {| is_open := Some false; temp_files := Some [];
        opened_at := Some (current_time - (3600 + minutes 30));
        last_author := Some "Michael Cheng" |}) ].


Section OtherTables.

(** [os.path.basename] *)
Variable basename : string -> string.

(** [len(status.get('temp_files', set()))]: the size of a set, which counts
    each name once. *)
Definition temp_count (st : status) : Z :=
  len (nodup string_dec (get (temp_files st) [])).

(** The row that the loop of [show_open_files_table] appends for one
    entry. *)
Definition open_row (current_time : datetime) (file_path : string)
    (st : status) : list string :=
  let filename := basename file_path in
  let author := get (last_author st) "未知" in
  let opened := get (opened_at st) current_time in
  let duration := current_time - opened in
  [filename; author; strftime_hms opened; format_duration duration;
   str (temp_count st)].

(** The list [open_files] when the loop ends. *)
Fixpoint collect_open (current_time : datetime)
    (file_status : list (string * status)) : list (list string) :=
  match file_status with
  | [] => []
  | (file_path, st) :: rest =>
      if get (is_open st) false
      then open_row current_time file_path st :: collect_open current_time rest
      else collect_open current_time rest
  end.

(** [show_open_files_table]: the rows handed to [print_table_row], in the
    order printed. *)
Definition show_open_files_table (current_time : datetime)
    (file_status : list (string * status)) : list (list string) :=
  collect_open current_time file_status.

End OtherTables.

(** One value of the [user_stats] dict of [show_user_summary_table]. *)
Record user_stat := {
  open_files : Z;
  total_files : Z
}.

(** The body of the statistics loop for one entry: the author's record is
    created at the end of the dict when it is new, and updated in place
    otherwise. *)
Fixpoint bump (author : string) (opened : bool)
    (stats : list (string * user_stat)) : list (string * user_stat) :=
  match stats with
  | [] =>
      [(author, {| open_files := if opened then 0 + 1 else 0;
                   total_files := 0 + 1 |})]
  | (a, s) :: rest =>
      if String.eqb author a
      then (a, {| open_files := if opened then open_files s + 1
                                else open_files s;
                  total_files := total_files s + 1 |}) :: rest
      else (a, s) :: bump author opened rest
  end.

(** The dict [user_stats] when the loop of [show_user_summary_table] ends,
    in insertion order. *)
Definition user_stats (file_status : list (string * status))
    : list (string * user_stat) :=
  fold_left
    (fun stats entry =>
       bump (get (last_author (snd entry)) "未知")
            (get (is_open (snd entry)) false) stats)
    file_status [].

(** *** Table borders and rows

    A Python [str] is a sequence of code points and the printing functions
    only count and cut them, so a text is a list over an arbitrary type of
    characters, with the characters that the functions write named. *)
Section Printing.

Variable char : Type.
Variables space bar dash : char.
Variables corner_tl corner_tr corner_bl corner_br : char.
Variables tee_top tee_bottom tee_left tee_right cross : char.

Definition text := list char.

(** [c * n] *)
Definition times (c : char) (n : Z) : text := repeat c (Z.to_nat n).

(** [sep.join(parts)] *)
Fixpoint join (sep : char) (parts : list text) : text :=
  match parts with
  | [] => []
  | [p] => p
  | p :: rest => p ++ sep :: join sep rest
  end.

(** [s.ljust(width)] *)
Definition ljust (width : Z) (s : text) : text :=
  s ++ times space (width - len s).

(** [s.center(width)]: of the missing characters, the left side takes half,
    rounded up when both the number missing and [width] are odd. *)
Definition center (width : Z) (s : text) : text :=
  let marg := width - len s in
  if marg <=? 0 then s
  else
    let left := marg / 2 + (if Z.odd marg && Z.odd width then 1 else 0) in
    times space left ++ s ++ times space (marg - left).

(** The border lines share one shape. *)
Definition border (l m r : char) (widths : list Z) : text :=
  l :: join m (map (times dash) widths) ++ [r].

(** [print_table_separator] *)
Definition print_table_separator (widths : list Z) : text :=
  border tee_left cross tee_right widths.

(** [print_table_footer] *)
Definition print_table_footer (widths : list Z) : text :=
  border corner_bl tee_bottom corner_br widths.

(** The cells of a row; [None] when [widths[i]] is out of range. *)
Fixpoint cells (pad : Z -> text -> text) (values : list text)
    (widths : list Z) : option (list text) :=
  match values with
  | [] => Some []
  | v :: vs =>
      match widths with
      | [] => None
      | w :: ws =>
          match cells pad vs ws with
          | Some rest =>
              Some ((space :: pad (w - 2) (slice_to (w - 2) v) ++ [space]) :: rest)
          | None => None
          end
      end
  end.

(** [print_table_row]: the line printed, or [None] for [IndexError]. *)
Definition print_table_row (values : list text) (widths : list Z)
    : option text :=
  match cells ljust values widths with
  | Some row_parts => Some (bar :: join bar row_parts ++ [bar])
  | None => None
  end.

(** [print_table_header]: the three lines printed, or [None] for
    [IndexError] (raised after the top border has been printed). *)
Definition print_table_header (headers : list text) (widths : list Z)
    : option (list text) :=
  match cells center headers widths with
  | Some row_parts =>
      Some [border corner_tl tee_top corner_tr widths;
            bar :: join bar row_parts ++ [bar];
            print_table_separator widths]
  | None => None
  end.

End Printing.

End Viewer.

(** ** Vocabulary of the properties *)

(** The trace component of a loop result. *)
Definition trace_of {S} (r : S * world * list event) : list event := snd r.

(** [launches_use flag evs]: every launch in the trace has [flag] among its
    arguments. *)
Definition launches_use (flag : string) (evs : list event) : Prop :=
  Forall (fun ev => match ev with
                    | EvPopen cmd => In flag cmd
                    | _ => True
                    end) evs.

(** [well_spaced d last clock evs]: reading the trace with a clock that starts
    at [clock] and advances by every sleep, each launch comes at least [d]
    seconds after the launch before it ([last], when there is one). *)
Fixpoint well_spaced (d : Z) (last : option Z) (clock : Z) (evs : list event)
    : Prop :=
  match evs with
  | [] => True
  | EvSleep x :: rest => well_spaced d last (clock + x) rest
  | EvPopen _ :: rest =>
      match last with Some t => t + d <= clock | None => True end
      /\ well_spaced d (Some clock) clock rest
  | _ :: rest => well_spaced d last clock rest
  end.

(** The clock and the time of the latest launch once a trace has been read. *)
Fixpoint clock_after (clock : Z) (evs : list event) : Z :=
  match evs with
  | [] => clock
  | EvSleep x :: rest => clock_after (clock + x) rest
  | _ :: rest => clock_after clock rest
  end.

Fixpoint last_after (last : option Z) (clock : Z) (evs : list event) : option Z :=
  match evs with
  | [] => last
  | EvSleep x :: rest => last_after last (clock + x) rest
  | EvPopen _ :: rest => last_after (Some clock) clock rest
  | _ :: rest => last_after last clock rest
  end.

Definition is_kill (ev : event) : bool :=
  match ev with EvKill _ => true | _ => false end.

Definition is_stop_action (ev : event) : bool :=
  match ev with EvTerminate _ | EvKill _ => true | _ => false end.

(** What is known about the latest launch between two steps: it is not in
    the future, and where the next action may be a launch it lies at least
    [d] seconds back. *)
Definition settled (d : Z) (may_launch : bool) (last : option Z) (clock : Z)
    : Prop :=
  match last with
  | None => True
  | Some t => t <= clock /\ (may_launch = true -> t + d <= clock)
  end.

Definition at_start (s : Guardian.loop_state) : bool :=
  match Guardian.at_phase s with Guardian.Starting => true | _ => false end.

Ltac split_cases :=
  repeat match goal with
         | |- context [if ?b then _ else _] => destruct b eqn:?
         | |- context [match ?x with Some _ => _ | None => _ end] =>
             destruct x eqn:?
         | |- context [let '(_, _) := ?x in _] => destruct x eqn:?
         end.

(** A step of the guardian loop in which the launch raises and nothing else
    disturbs the loop. *)
Definition start_fails (e : Guardian.env) : Prop :=
  Guardian.interrupt e = false
  /\ Guardian.failure e = false
  /\ Guardian.popen_result e = None.

(** ** Further vocabulary *)

Definition is_launch (ev : event) : bool :=
  match ev with EvPopen _ => true | _ => false end.

(** A notification of a successful restart. *)
Definition is_success (ev : event) : bool :=
  match ev with EvNotify true _ => true | _ => false end.

(** The guardian's history holds fewer events than the limit, or none. *)
Definition within_limit (g : Guardian.WatchdogGuardian) : Prop :=
  Guardian.restart_times g = []
  \/ len (Guardian.restart_times g) < Guardian.max_restarts_per_hour g.


(** Row [a] may stand before row [b] in the closed-files table. *)
Definition not_below (a b : list string) : Prop :=
  String.ltb (Viewer.key a) (Viewer.key b) = false.

Definition lacks_is_open (entry : string * Viewer.status) : bool :=
  match Viewer.is_open (snd entry) with None => true | Some _ => false end.

Definition sum_total (stats : list (string * Viewer.user_stat)) : Z :=
  fold_right (fun entry acc => Viewer.total_files (snd entry) + acc) 0 stats.

Definition sum_open (stats : list (string * Viewer.user_stat)) : Z :=
  fold_right (fun entry acc => Viewer.open_files (snd entry) + acc) 0 stats.

(** [sum(max(w, 0) for w in widths)] *)
Definition sum_widths (widths : list Z) : Z :=
  fold_right (fun w acc => Z.max w 0 + acc) 0 widths.

(** Total length of the parts of a line. *)
Definition sum_len {A} (parts : list (list A)) : Z :=
  fold_right (fun part acc => len part + acc) 0 parts.

(** What holds of every record of [user_stats]. *)
Definition sound_stat (entry : string * Viewer.user_stat) : Prop :=
  0 <= Viewer.open_files (snd entry) <= Viewer.total_files (snd entry)
  /\ 1 <= Viewer.total_files (snd entry).

Definition shown_open (entry : string * Viewer.status) : bool :=
  Viewer.get (Viewer.is_open (snd entry)) false.

(** ** Concrete scenarios for the monitor *)

Module Scenario.

(** The command line under which a running worker shows in the process
    table. *)
Definition worker_cmdline : list string := ["python.exe"; "main.py"].

(** A pass in which no worker is found and the launch succeeds with process
    id 4242. *)
Definition worker_missing : Monitor.env :=
  {| Monitor.interrupt := false;
     Monitor.failure := false;
     Monitor.table := Some [];
     Monitor.hb_file := FileAbsent;
     Monitor.time_now := 10000;
     Monitor.limit_now := 10000;
     Monitor.table_restart := Some [];
     Monitor.stop_result := Monitor.StopExited;
     Monitor.popen_result := Some 4242;
     Monitor.record_now := 10000 |}.

(** A pass in which worker 4100 is in the process table with a heartbeat
    that is 130 s old, does not end within the 10 s wait after the
    termination request, and the launch succeeds with process id 4242. *)
Definition worker_hung : Monitor.env :=
  {| Monitor.interrupt := false;
     Monitor.failure := false;
     Monitor.table := Some [Monitor.ProcInfo 4100 (Some worker_cmdline)];
     Monitor.hb_file := FileJson (JObj [("timestamp", JNum 9870)]);
     Monitor.time_now := 10000;
     Monitor.limit_now := 10000;
     Monitor.table_restart := Some [Monitor.ProcInfo 4100 (Some worker_cmdline)];
     Monitor.stop_result := Monitor.StopTimedOut;
     Monitor.popen_result := Some 4242;
     Monitor.record_now := 10000 |}.

(** A pass cut short by an interrupt. *)
Definition interrupted : Monitor.env :=
  {| Monitor.interrupt := true;
     Monitor.failure := false;
     Monitor.table := Some [Monitor.ProcInfo 4242 (Some worker_cmdline)];
     Monitor.hb_file := FileAbsent;
     Monitor.time_now := 10090;
     Monitor.limit_now := 10090;
     Monitor.table_restart := Some [];
     Monitor.stop_result := Monitor.StopExited;
     Monitor.popen_result := None;
     Monitor.record_now := 10090 |}.

(** A monitor that has made five restarts in the last 45 minutes. *)
Definition five_recent : Monitor.WatchdogMonitor :=
  Monitor.set_history Monitor.init [7400; 8000; 8600; 9200; 9800].

Definition empty_world : world := {| live := [] |}.

Definition world_with (p : pid) : world := {| live := [p] |}.

(** A pass in which the launch raises. *)
Definition launch_fails : Monitor.env :=
  {| Monitor.interrupt := false;
     Monitor.failure := false;
     Monitor.table := Some [];
     Monitor.hb_file := FileAbsent;
     Monitor.time_now := 10000;
     Monitor.limit_now := 10000;
     Monitor.table_restart := Some [];
     Monitor.stop_result := Monitor.StopExited;
     Monitor.popen_result := None;
     Monitor.record_now := 10000 |}.

(** Steps of the guardian loop. *)
Definition step_env (interrupted failed : bool) (started : option pid)
    (ended : option Z) (t : Z) (obeys : bool) : Guardian.env :=
  {| Guardian.interrupt := interrupted;
     Guardian.interrupt_in_output := false;
     Guardian.failure := failed;
     Guardian.popen_result := started;
     Guardian.exit_code := ended;
     Guardian.now := t;
     Guardian.check_now := t;
     Guardian.exits_on_terminate := obeys |}.


End Scenario.

(** ** The restart limiter *)

Lemma prune_In (now t : Z) (history : list Z) :
  In t (prune now history) <-> In t history /\ now - one_hour < t.
Proof.
  unfold prune. rewrite filter_In, Z.ltb_lt. reflexivity.
Qed.

Lemma prune_length_le (now : Z) (history : list Z) :
  len (prune now history) <= len history.
Proof.
  unfold len, prune. induction history as [|t h IH]; simpl; [lia|].
  destruct (now - one_hour <? t); simpl; lia.
Qed.

Lemma prune_nil (now : Z) : prune now [] = [].
Proof. reflexivity. Qed.

(** C1. Both admission checks first replace the history by its pruned
    version, which keeps exactly the events strictly later than
    [now - one_hour] (an event at [now - one_hour] itself is dropped), and
    then deny exactly when the pruned count has reached the configured
    maximum: [check_restart_limit] answers [False] and
    [is_too_many_restarts] answers [True] in that case, and the opposite
    otherwise. *)
Theorem admission_denied_iff_pruned_count_reaches_max :
  (forall (m : Monitor.WatchdogMonitor) (now : Z),
      let '(ok, _, m') := Monitor.check_restart_limit m now in
      Monitor.restart_history m' = prune now (Monitor.restart_history m)
      /\ (ok = false <->
             Monitor.max_restarts_per_hour m
             <= len (prune now (Monitor.restart_history m)))
      /\ (ok = true <->
             len (prune now (Monitor.restart_history m))
             < Monitor.max_restarts_per_hour m))
  /\ (forall (g : Guardian.WatchdogGuardian) (now : Z),
      let '(too_many, g') := Guardian.is_too_many_restarts g now in
      Guardian.restart_times g' = prune now (Guardian.restart_times g)
      /\ (too_many = true <->
             Guardian.max_restarts_per_hour g
             <= len (prune now (Guardian.restart_times g)))
      /\ (too_many = false <->
             len (prune now (Guardian.restart_times g))
             < Guardian.max_restarts_per_hour g))
  /\ (forall (now t : Z) (history : list Z),
      In t (prune now history) <-> In t history /\ now - 3600 < t)
  /\ (forall (now : Z) (history : list Z),
      ~ In (now - 3600) (prune now history)).
Proof.
  split; [|split; [|split]].
  - intros m now. unfold Monitor.check_restart_limit; simpl.
    destruct (Z.leb_spec (Monitor.max_restarts_per_hour m)
                (len (prune now (Monitor.restart_history m)))) as [Hle|Hlt];
      simpl; repeat split; intros; try assumption; try reflexivity;
      try discriminate; lia.
  - intros g now. unfold Guardian.is_too_many_restarts; simpl.
    split; [reflexivity|]. split.
    + apply Z.leb_le.
    + apply Z.leb_gt.
  - intros now t history. apply prune_In.
  - intros now history H. apply prune_In in H. unfold one_hour in H. lia.
Qed.

(** ** The heartbeat check *)

Lemma check_heartbeat_numeric (m : Monitor.WatchdogMonitor)
    (fields : list (string * json)) (t now : Z) :
  dict_lookup "timestamp" fields = Some (JNum t) ->
  Monitor.check_heartbeat m (FileJson (JObj fields)) now
  = if Monitor.heartbeat_timeout m <? now - t
    then (false, Monitor.HbTimeout (now - t))
    else (true, Monitor.HbNormal (now - t)).
Proof.
  intros H. unfold Monitor.check_heartbeat, json_get. rewrite H. reflexivity.
Qed.

(** C5. For a heartbeat record whose [timestamp] is the number [t], the
    check computes [elapsed = now - t] and compares it with the timeout by a
    strict greater-than: the record is healthy when [elapsed] equals the
    timeout (and whenever it does not exceed it), and it is stale as soon as
    [elapsed] exceeds the timeout, in particular one second past it. *)
Theorem heartbeat_at_threshold_is_alive (m : Monitor.WatchdogMonitor)
    (fields : list (string * json)) (t now : Z)
    (Hts : dict_lookup "timestamp" fields = Some (JNum t)) :
  (now - t = Monitor.heartbeat_timeout m ->
     Monitor.check_heartbeat m (FileJson (JObj fields)) now
     = (true, Monitor.HbNormal (Monitor.heartbeat_timeout m)))
  /\ (now - t <= Monitor.heartbeat_timeout m ->
     Monitor.check_heartbeat m (FileJson (JObj fields)) now
     = (true, Monitor.HbNormal (now - t)))
  /\ (Monitor.heartbeat_timeout m < now - t ->
     Monitor.check_heartbeat m (FileJson (JObj fields)) now
     = (false, Monitor.HbTimeout (now - t)))
  /\ (now - t = Monitor.heartbeat_timeout m + 1 ->
     Monitor.check_heartbeat m (FileJson (JObj fields)) now
     = (false, Monitor.HbTimeout (Monitor.heartbeat_timeout m + 1))).
Proof.
  rewrite (check_heartbeat_numeric m fields t now Hts).
  repeat split; intros H.
  - rewrite H. rewrite Z.ltb_irrefl. reflexivity.
  - destruct (Z.ltb_spec (Monitor.heartbeat_timeout m) (now - t)); [lia|reflexivity].
  - destruct (Z.ltb_spec (Monitor.heartbeat_timeout m) (now - t)); [reflexivity|lia].
  - rewrite H.
    destruct (Z.ltb_spec (Monitor.heartbeat_timeout m)
                (Monitor.heartbeat_timeout m + 1)); [reflexivity|lia].
Qed.

Lemma heartbeat_at_threshold_is_alive_witness :
  Monitor.check_heartbeat Monitor.init
    (FileJson (JObj [("timestamp", JNum 1000)])) 1120
  = (true, Monitor.HbNormal 120)
  /\ Monitor.check_heartbeat Monitor.init
       (FileJson (JObj [("timestamp", JNum 1000)])) 1121
     = (false, Monitor.HbTimeout 121).
Proof.
  split.
  - apply (proj1 (heartbeat_at_threshold_is_alive Monitor.init
                    [("timestamp", JNum 1000)] 1000 1120 eq_refl)).
    reflexivity.
  - apply (proj2 (proj2 (proj2 (heartbeat_at_threshold_is_alive Monitor.init
                    [("timestamp", JNum 1000)] 1000 1121 eq_refl)))).
    reflexivity.
Defined.

(** C10. A heartbeat file that parses to a JSON object without a
    [timestamp] key is read with the default [0] for the last update, so
    [elapsed] is the whole current time: whenever the current time exceeds
    the timeout the record is reported stale with that elapsed value, and it
    is never reported as unreadable. *)
Theorem heartbeat_without_timestamp_is_stale (m : Monitor.WatchdogMonitor)
    (fields : list (string * json)) (now : Z)
    (Hmissing : dict_lookup "timestamp" fields = None)
    (Hnow : Monitor.heartbeat_timeout m < now) :
  Monitor.check_heartbeat m (FileJson (JObj fields)) now
  = (false, Monitor.HbTimeout now)
  /\ snd (Monitor.check_heartbeat m (FileJson (JObj fields)) now)
     <> Monitor.HbReadFailed.
Proof.
  assert (E : Monitor.check_heartbeat m (FileJson (JObj fields)) now
              = (false, Monitor.HbTimeout now)).
  { unfold Monitor.check_heartbeat, json_get. rewrite Hmissing. simpl.
    rewrite Z.sub_0_r.
    destruct (Z.ltb_spec (Monitor.heartbeat_timeout m) now); [reflexivity|lia]. }
  rewrite E. split; [reflexivity | discriminate].
Qed.

Lemma heartbeat_without_timestamp_is_stale_witness :
  Monitor.check_heartbeat Monitor.init
    (FileJson (JObj [("pid", JNum 4242)])) 1700000000
  = (false, Monitor.HbTimeout 1700000000)
  /\ snd (Monitor.check_heartbeat Monitor.init
            (FileJson (JObj [("pid", JNum 4242)])) 1700000000)
     <> Monitor.HbReadFailed.
Proof.
  apply (heartbeat_without_timestamp_is_stale Monitor.init
           [("pid", JNum 4242)] 1700000000).
  - reflexivity.
  - reflexivity.
Defined.

(** A parsed value that is not an object has no [get] and is reported as a
    read failure. *)
Lemma heartbeat_non_object_unreadable (m : Monitor.WatchdogMonitor) (now : Z) :
  Monitor.check_heartbeat m (FileJson (JArr [])) now
  = (false, Monitor.HbReadFailed).
Proof. reflexivity. Qed.

(** ** The launch command *)

Lemma launches_use_app (flag : string) (a b : list event) :
  launches_use flag a -> launches_use flag b -> launches_use flag (a ++ b).
Proof. unfold launches_use. intros Ha Hb. apply Forall_app. split; assumption. Qed.

Lemma on_interrupt_launches (flag : string) g w e :
  launches_use flag (snd (Guardian.on_interrupt g w e)).
Proof.
  unfold Guardian.on_interrupt, launches_use.
  destruct (Guardian.process g) as [p|]; [|constructor].
  destruct (is_live p w); [|constructor].
  destruct (Guardian.exits_on_terminate e); simpl; repeat constructor.
Qed.

Lemma launch_cmd_has_flag (g : Guardian.WatchdogGuardian) :
  In "--auto-start" (Guardian.launch_cmd g).
Proof. unfold Guardian.launch_cmd. simpl. auto. Qed.

Lemma start_watchdog_launches g w r :
  launches_use "--auto-start" (snd (Guardian.start_watchdog g w r)).
Proof.
  unfold Guardian.start_watchdog, launches_use.
  destruct r; simpl; (constructor; [apply launch_cmd_has_flag | constructor]).
Qed.

Lemma sleep_launches (flag : string) (d : Z) : launches_use flag [EvSleep d].
Proof. unfold launches_use. constructor; [exact I | constructor]. Qed.

Lemma after_exit_launches (flag : string) s w e :
  launches_use flag (trace_of (Guardian.after_exit s w e)).
Proof.
  unfold trace_of, Guardian.after_exit.
  destruct (Guardian.is_too_many_restarts _ _) as [[|] g2]; simpl;
    apply sleep_launches.
Qed.

Lemma run_step_launches s w e :
  launches_use "--auto-start" (trace_of (Guardian.run_step s w e)).
Proof.
  unfold trace_of, Guardian.run_step, Guardian.monitor_output.
  destruct (Guardian.at_phase s).
  - destruct (Guardian.interrupt e).
    + pose proof (on_interrupt_launches "--auto-start" (Guardian.self s) w e) as H.
      destruct (Guardian.on_interrupt (Guardian.self s) w e); exact H.
    + destruct (Guardian.failure e); [apply sleep_launches|].
      pose proof (start_watchdog_launches (Guardian.self s) w
                    (Guardian.popen_result e)) as H.
      destruct (Guardian.start_watchdog (Guardian.self s) w
                  (Guardian.popen_result e)) as [[[[|] g1] w1] evs]; simpl in *.
      * exact H.
      * apply launches_use_app; [exact H | apply sleep_launches].
  - destruct (Guardian.interrupt e).
    + pose proof (on_interrupt_launches "--auto-start" (Guardian.self s) w e) as H.
      destruct (Guardian.on_interrupt (Guardian.self s) w e); exact H.
    + destruct (Guardian.failure e); [apply sleep_launches|].
      destruct (Guardian.process (Guardian.self s)); [|apply sleep_launches].
      destruct (Guardian.exit_code e); [|simpl; apply sleep_launches].
      apply after_exit_launches.
  - constructor.
Qed.

(** C8 (as amended). Every launch made by the guardian loop, from any loop
    state and under any behaviour of the environment, passes the argument
    [--auto-start] after the interpreter and the script. *)
Theorem guardian_launches_pass_auto_start :
  forall (envs : list Guardian.env) (s : Guardian.loop_state) (w : world),
    launches_use "--auto-start" (trace_of (Guardian.run s w envs)).
Proof.
  induction envs as [|e rest IH]; intros s w; simpl.
  - constructor.
  - pose proof (run_step_launches s w e) as Hstep.
    destruct (Guardian.run_step s w e) as [[s1 w1] ev1].
    specialize (IH s1 w1).
    destruct (Guardian.run s1 w1 rest) as [[s2 w2] ev2].
    unfold trace_of in *; simpl in *.
    apply launches_use_app; assumption.
Qed.

(** C8 fails as stated: the monitor launches the worker with the interpreter
    and the script alone. *)
Lemma monitor_launch_has_no_flag :
  trace_of (Monitor.monitor_pass Monitor.init Scenario.empty_world
              Scenario.worker_missing)
  = [EvPopen ["python"; "main.py"]; EvNotify true (Some 4242);
     EvSleep 30; EvSleep 60]
  /\ ~ launches_use "--auto-start"
        (trace_of (Monitor.monitor_pass Monitor.init Scenario.empty_world
                     Scenario.worker_missing)).
Proof.
  split; [reflexivity|].
  intros H. unfold launches_use in H. apply Forall_inv in H. simpl in H.
  destruct H as [H|[H|[]]]; discriminate.
Qed.

(** ** Denial by the limiter *)

(** C2 fails as stated: with five restarts in the last hour and a limit of
    five, the monitor is denied the restart, sleeps only its check interval
    of 60 s and keeps the five events. *)
Lemma monitor_denied_keeps_history :
  fst (fst (Monitor.check_restart_limit Scenario.five_recent 10000)) = false
  /\ trace_of (Monitor.monitor_pass Scenario.five_recent Scenario.empty_world
                 Scenario.worker_missing)
     = [EvSleep 60]
  /\ ~ In (EvSleep 3600)
         (trace_of (Monitor.monitor_pass Scenario.five_recent
                      Scenario.empty_world Scenario.worker_missing))
  /\ Monitor.restart_history
       (fst (fst (Monitor.monitor_pass Scenario.five_recent
                    Scenario.empty_world Scenario.worker_missing)))
     = [7400; 8000; 8600; 9200; 9800].
Proof.
  repeat split.
  intros [H|[]]. discriminate.
Qed.

(** C2 (as amended). In the guardian, when the worker has ended and
    [is_too_many_restarts] answers [True], the step sleeps 3600 s, leaves
    the history empty and returns to the start of the loop, whose next
    undisturbed step launches the worker.  In the monitor, a denied restart
    launches nothing and clears nothing: the pass keeps the pruned history
    and sleeps the check interval before the next check. *)
Theorem denied_backs_off_in_guardian_waits_in_monitor :
  (forall (s : Guardian.loop_state) (w : world) (e : Guardian.env) (p : pid) (rc : Z),
      Guardian.at_phase s = Guardian.Running ->
      Guardian.interrupt e = false ->
      Guardian.failure e = false ->
      Guardian.process (Guardian.self s) = Some p ->
      Guardian.exit_code e = Some rc ->
      fst (Guardian.is_too_many_restarts
             (Guardian.set_times (Guardian.self s)
                (Guardian.restart_times (Guardian.self s) ++ [Guardian.now e]))
             (Guardian.check_now e)) = true ->
      let '(s1, w1, evs) := Guardian.run_step s w e in
      evs = [EvSleep 3600]
      /\ Guardian.restart_times (Guardian.self s1) = []
      /\ Guardian.at_phase s1 = Guardian.Starting
      /\ forall e1 : Guardian.env,
           Guardian.interrupt e1 = false ->
           Guardian.failure e1 = false ->
           hd_error (trace_of (Guardian.run_step s1 w1 e1))
           = Some (EvPopen (Guardian.launch_cmd (Guardian.self s))))
  /\ (forall (m : Monitor.WatchdogMonitor) (w : world) (e : Monitor.env),
      Monitor.interrupt e = false ->
      Monitor.failure e = false ->
      fst (Monitor.check_process_exists m (Monitor.table e)) = false ->
      fst (fst (Monitor.check_restart_limit m (Monitor.limit_now e))) = false ->
      Monitor.monitor_pass m w e
      = (Monitor.set_history m
           (prune (Monitor.limit_now e) (Monitor.restart_history m)),
         w, [EvSleep (Monitor.check_interval m)])).
Proof.
  split.
  - intros s w e p rc Hph Hint Hfail Hproc Hexit Hmany.
    unfold Guardian.run_step. rewrite Hph, Hint, Hfail, Hproc, Hexit.
    unfold Guardian.after_exit.
    destruct (Guardian.is_too_many_restarts _ _) as [many g2] eqn:E.
    simpl in Hmany. subst many.
    repeat split.
    intros e1 Hint1 Hfail1.
    unfold Guardian.run_step; simpl. rewrite Hint1, Hfail1.
    unfold Guardian.is_too_many_restarts in E. inversion E; subst g2; clear E.
    unfold Guardian.start_watchdog.
    destruct (Guardian.popen_result e1); reflexivity.
  - intros m w e Hint Hfail Hmissing Hdenied.
    unfold Monitor.monitor_pass. rewrite Hint, Hfail.
    destruct (Monitor.check_process_exists m (Monitor.table e)) as [ex q].
    simpl in Hmissing. subst ex.
    destruct (Monitor.check_heartbeat m (Monitor.hb_file e) (Monitor.time_now e))
      as [ok msg].
    simpl. unfold Monitor.restart_main_program.
    unfold Monitor.check_restart_limit in *.
    destruct (_ <=? _); simpl in *; [reflexivity | discriminate].
Qed.

Lemma denied_backs_off_in_guardian_waits_in_monitor_witness :
  Monitor.monitor_pass Scenario.five_recent Scenario.empty_world
    Scenario.worker_missing
  = (Monitor.set_history Scenario.five_recent
       (prune 10000 [7400; 8000; 8600; 9200; 9800]),
     Scenario.empty_world, [EvSleep 60])
  /\ (let '(s1, w1, evs) :=
        Guardian.run_step
          {| Guardian.self :=
               Guardian.set_process
                 (Guardian.set_times Guardian.init
                    [7000; 7300; 7600; 7900; 8200; 8500; 8800; 9100; 9400])
                 (Some 4242);
             Guardian.restart_count := 9;
             Guardian.at_phase := Guardian.Running |}
          (Scenario.world_with 4242)
          (Scenario.step_env false false None (Some 1) 9700 true) in
      evs = [EvSleep 3600]
      /\ Guardian.restart_times (Guardian.self s1) = []
      /\ Guardian.at_phase s1 = Guardian.Starting
      /\ forall e1 : Guardian.env,
           Guardian.interrupt e1 = false ->
           Guardian.failure e1 = false ->
           hd_error (trace_of (Guardian.run_step s1 w1 e1))
           = Some (EvPopen ["python"; "main.py"; "--auto-start"])).
Proof.
  split.
  - apply (proj2 denied_backs_off_in_guardian_waits_in_monitor
             Scenario.five_recent Scenario.empty_world Scenario.worker_missing);
      reflexivity.
  - apply (proj1 denied_backs_off_in_guardian_waits_in_monitor
             {| Guardian.self :=
                  Guardian.set_process
                    (Guardian.set_times Guardian.init
                       [7000; 7300; 7600; 7900; 8200; 8500; 8800; 9100; 9400])
                    (Some 4242);
                Guardian.restart_count := 9;
                Guardian.at_phase := Guardian.Running |}
             (Scenario.world_with 4242)
             (Scenario.step_env false false None (Some 1) 9700 true)
             4242 1); reflexivity.
Defined.

(** ** Stopping the worker *)






(** ** Interruption *)


Lemma monitor_loop_not_running (envs : list Monitor.env)
    (m : Monitor.WatchdogMonitor) (w : world) :
  Monitor.running m = false -> Monitor.monitor_loop m w envs = (m, w, []).
Proof.
  intros H. destruct envs; simpl; [reflexivity|]. rewrite H. reflexivity.
Qed.




(** ** Failed starts *)

(** C6. In the guardian, any number of consecutive failed launches leaves
    the loop at its start with the same state, hence the same restart
    history (empty when it was empty) and the same answer of the limiter;
    each failure is followed by a sleep of the restart delay.  In the
    monitor, a restart whose launch raises reports failure and appends
    nothing: the history it leaves is the pruned old history, which only
    holds events that were there before. *)
Theorem failed_starts_record_nothing :
  (forall (envs : list Guardian.env) (g : Guardian.WatchdogGuardian)
          (count : Z) (w : world),
      Forall start_fails envs ->
      Guardian.run
        {| Guardian.self := g; Guardian.restart_count := count;
           Guardian.at_phase := Guardian.Starting |} w envs
      = ({| Guardian.self := g; Guardian.restart_count := count;
            Guardian.at_phase := Guardian.Starting |},
         w,
         flat_map (fun _ => [EvPopen (Guardian.launch_cmd g);
                             EvSleep (Guardian.restart_delay g)]) envs))
  /\ (forall (m : Monitor.WatchdogMonitor) (w : world) (e : Monitor.env),
      Monitor.popen_result e = None ->
      let '(ok, m1, _, _) := Monitor.restart_main_program m w e in
      ok = false
      /\ Monitor.restart_history m1
         = prune (Monitor.limit_now e) (Monitor.restart_history m)
      /\ (forall t, In t (Monitor.restart_history m1) ->
                    In t (Monitor.restart_history m))
      /\ (Monitor.restart_history m = [] -> Monitor.restart_history m1 = [])).
Proof.
  split.
  - induction envs as [|e rest IH]; intros g count w Hall; simpl; [reflexivity|].
    inversion Hall as [|e' rest' [Hint [Hfail Hpopen]] Hrest]; subst.
    unfold Guardian.run_step; simpl. rewrite Hint, Hfail, Hpopen. simpl.
    unfold Guardian.goto; simpl.
    rewrite (IH g count w Hrest). reflexivity.
  - intros m w e Hpopen.
    unfold Monitor.restart_main_program, Monitor.check_restart_limit.
    rewrite Hpopen.
    assert (Hsub : forall t,
               In t (prune (Monitor.limit_now e) (Monitor.restart_history m)) ->
               In t (Monitor.restart_history m)).
    { intros t Ht. apply prune_In in Ht. tauto. }
    assert (Hnil : Monitor.restart_history m = [] ->
                   prune (Monitor.limit_now e) (Monitor.restart_history m) = []).
    { intros ->. reflexivity. }
    destruct (_ <=? _); simpl.
    + repeat split; assumption.
    + destruct (Monitor.check_process_exists _ _) as [[|] [q|]];
        try destruct (Monitor.terminate_existing _ _ _);
        simpl; repeat split; assumption.
Qed.

Lemma failed_starts_record_nothing_witness :
  Guardian.run (Guardian.start_state Guardian.init) Scenario.empty_world
    [Scenario.step_env false false None None 100 true;
     Scenario.step_env false false None None 105 true;
     Scenario.step_env false false None None 110 true]
  = (Guardian.start_state Guardian.init, Scenario.empty_world,
     [EvPopen ["python"; "main.py"; "--auto-start"]; EvSleep 5;
      EvPopen ["python"; "main.py"; "--auto-start"]; EvSleep 5;
      EvPopen ["python"; "main.py"; "--auto-start"]; EvSleep 5])
  /\ (let '(ok, m1, _, _) :=
        Monitor.restart_main_program Monitor.init Scenario.empty_world
          Scenario.launch_fails in
      ok = false
      /\ Monitor.restart_history m1
         = prune 10000 (Monitor.restart_history Monitor.init)
      /\ (forall t, In t (Monitor.restart_history m1) ->
                    In t (Monitor.restart_history Monitor.init))
      /\ (Monitor.restart_history Monitor.init = [] ->
          Monitor.restart_history m1 = [])).
Proof.
  split.
  - apply (proj1 failed_starts_record_nothing
             [Scenario.step_env false false None None 100 true;
              Scenario.step_env false false None None 105 true;
              Scenario.step_env false false None None 110 true]
             Guardian.init 0 Scenario.empty_world).
    repeat constructor.
  - apply (proj2 failed_starts_record_nothing Monitor.init
             Scenario.empty_world Scenario.launch_fails).
    reflexivity.
Defined.

(** ** Spacing of launches *)

Lemma well_spaced_app (d : Z) (a b : list event) :
  forall (last : option Z) (clock : Z),
    well_spaced d last clock (a ++ b)
    <-> well_spaced d last clock a
        /\ well_spaced d (last_after last clock a) (clock_after clock a) b.
Proof.
  induction a as [|ev a IH]; intros last clock; simpl.
  - tauto.
  - destruct ev; simpl; try apply IH.
    rewrite IH. tauto.
Qed.

Lemma guardian_step_spaced (d : Z) (s : Guardian.loop_state) (w : world)
    (e : Guardian.env) (last : option Z) (clock : Z) :
  0 <= d <= 3600 ->
  Guardian.restart_delay (Guardian.self s) = d ->
  settled d (at_start s) last clock ->
  let '(s1, w1, evs) := Guardian.run_step s w e in
  well_spaced d last clock evs
  /\ settled d (at_start s1) (last_after last clock evs) (clock_after clock evs)
  /\ Guardian.restart_delay (Guardian.self s1) = d.
Proof.
  intros Hd Hdelay Hs.
  unfold Guardian.run_step, Guardian.monitor_output, Guardian.on_interrupt, Guardian.after_exit,
    Guardian.start_watchdog, Guardian.is_too_many_restarts, at_start in *.
  destruct (Guardian.at_phase s) eqn:Hph; split_cases; simpl;
    unfold settled in *; rewrite ?Hdelay, ?Hph; destruct last; simpl;
    repeat split; try (intros; discriminate); try exact Hdelay; lia.
Qed.

Lemma guardian_run_spaced (d : Z) (envs : list Guardian.env) :
  forall (s : Guardian.loop_state) (w : world) (last : option Z) (clock : Z),
    0 <= d <= 3600 ->
    Guardian.restart_delay (Guardian.self s) = d ->
    settled d (at_start s) last clock ->
    well_spaced d last clock (trace_of (Guardian.run s w envs)).
Proof.
  induction envs as [|e rest IH]; intros s w last clock Hd Hdelay Hs; simpl.
  - exact I.
  - pose proof (guardian_step_spaced d s w e last clock Hd Hdelay Hs) as Hstep.
    destruct (Guardian.run_step s w e) as [[s1 w1] ev1].
    destruct Hstep as [Hev1 [Hs1 Hdelay1]].
    specialize (IH s1 w1 _ _ Hd Hdelay1 Hs1).
    destruct (Guardian.run s1 w1 rest) as [[s2 w2] ev2].
    unfold trace_of in *; simpl in *.
    apply well_spaced_app. split; assumption.
Qed.

Lemma monitor_pass_spaced (d : Z) (m : Monitor.WatchdogMonitor) (w : world)
    (e : Monitor.env) (last : option Z) (clock : Z) :
  0 <= d ->
  Monitor.check_interval m = d ->
  settled d true last clock ->
  let '(m1, w1, evs) := Monitor.monitor_pass m w e in
  well_spaced d last clock evs
  /\ settled d true (last_after last clock evs) (clock_after clock evs)
  /\ Monitor.check_interval m1 = d.
Proof.
  intros Hd Hci Hs.
  unfold Monitor.monitor_pass, Monitor.restart_main_program,
    Monitor.check_restart_limit.
  destruct (Monitor.interrupt e); [simpl; auto|].
  destruct (Monitor.failure e).
  { simpl. rewrite Hci. unfold settled in *. destruct last; simpl; auto.
    repeat split; try lia. }
  destruct (Monitor.check_process_exists m (Monitor.table e)) as [ex q].
  destruct (Monitor.check_heartbeat m (Monitor.hb_file e) (Monitor.time_now e))
    as [ok msg].
  destruct (negb ex || negb ok).
  2:{ simpl. rewrite Hci. unfold settled in *. destruct last; simpl; auto.
      repeat split; try lia. }
  destruct (_ <=? _); simpl.
  { rewrite Hci. unfold settled in *. destruct last; simpl; auto.
    repeat split; try lia. }
  destruct (Monitor.check_process_exists _ (Monitor.table_restart e))
    as [[|] [p|]];
    try destruct (Monitor.stop_result e); simpl;
    destruct (Monitor.popen_result e); simpl; rewrite ?Hci;
    unfold settled in *; destruct last; simpl; repeat split; lia.
Qed.

Lemma monitor_loop_spaced (d : Z) (envs : list Monitor.env) :
  forall (m : Monitor.WatchdogMonitor) (w : world) (last : option Z) (clock : Z),
    0 <= d ->
    Monitor.check_interval m = d ->
    settled d true last clock ->
    well_spaced d last clock (trace_of (Monitor.monitor_loop m w envs)).
Proof.
  induction envs as [|e rest IH]; intros m w last clock Hd Hci Hs; simpl.
  - exact I.
  - destruct (Monitor.running m); [|exact I].
    pose proof (monitor_pass_spaced d m w e last clock Hd Hci Hs) as Hstep.
    destruct (Monitor.monitor_pass m w e) as [[m1 w1] ev1].
    destruct Hstep as [Hev1 [Hs1 Hci1]].
    specialize (IH m1 w1 _ _ Hd Hci1 Hs1).
    destruct (Monitor.monitor_loop m1 w1 rest) as [[m2 w2] ev2].
    unfold trace_of in *; simpl in *.
    apply well_spaced_app. split; assumption.
Qed.

(** C7. Reading the trace of the guardian loop with a clock that advances
    by every sleep, each launch of the worker comes at least the restart
    delay after the launch before it, whatever the environment does,
    provided the restart delay is not negative and not longer than the
    3600 s back-off (the configured delay is 5 s).  In the monitor, whose
    only delay setting is the check interval, consecutive launches are at
    least one check interval apart. *)
Theorem launches_are_spaced_by_restart_delay :
  (forall (g : Guardian.WatchdogGuardian) (w : world) (envs : list Guardian.env),
      0 <= Guardian.restart_delay g <= 3600 ->
      well_spaced (Guardian.restart_delay g) None 0
        (trace_of (Guardian.run (Guardian.start_state g) w envs)))
  /\ (forall (m : Monitor.WatchdogMonitor) (w : world) (envs : list Monitor.env),
      0 <= Monitor.check_interval m ->
      well_spaced (Monitor.check_interval m) None 0
        (trace_of (Monitor.monitor_loop m w envs))).
Proof.
  split.
  - intros g w envs Hd.
    apply guardian_run_spaced; [exact Hd | reflexivity | exact I].
  - intros m w envs Hd.
    apply monitor_loop_spaced; [exact Hd | reflexivity | exact I].
Qed.

Lemma launches_are_spaced_by_restart_delay_witness :
  well_spaced 5 None 0
    (trace_of (Guardian.run (Guardian.start_state Guardian.init)
                 Scenario.empty_world
                 [Scenario.step_env false false (Some 4242) None 100 true;
                  Scenario.step_env false false None (Some 1) 100 true;
                  Scenario.step_env false false (Some 4243) None 105 true]))
  /\ well_spaced 60 None 0
       (trace_of (Monitor.monitor_loop Monitor.init Scenario.empty_world
                    [Scenario.worker_missing; Scenario.worker_missing])).
Proof.
  split.
  - apply (proj1 launches_are_spaced_by_restart_delay Guardian.init
             Scenario.empty_world
             [Scenario.step_env false false (Some 4242) None 100 true;
              Scenario.step_env false false None (Some 1) 100 true;
              Scenario.step_env false false (Some 4243) None 105 true]).
    simpl. lia.
  - apply (proj2 launches_are_spaced_by_restart_delay Monitor.init
             Scenario.empty_world
             [Scenario.worker_missing; Scenario.worker_missing]).
    simpl. lia.
Defined.

(** The spacing predicate rejects a second launch that comes only 4 s after
    the first when 5 s are asked for. *)
Lemma well_spaced_rejects_early_launch :
  ~ well_spaced 5 None 0 [EvPopen ["a"]; EvSleep 4; EvPopen ["a"]].
Proof. simpl. lia. Qed.

(** With a restart delay of 7200 s the guardian's back-off of 3600 s is the
    shorter wait, and a launch follows the previous one by 3600 s only. *)
Lemma long_delay_backoff_is_shorter :
  trace_of
    (Guardian.run
       (Guardian.start_state
          {| Guardian.watchdog_script := "main.py";
             Guardian.restart_delay := 7200;
             Guardian.max_restarts_per_hour := 1;
             Guardian.restart_times := [];
             Guardian.process := None |})
       Scenario.empty_world
       [Scenario.step_env false false (Some 4242) None 100 true;
        Scenario.step_env false false None (Some 1) 100 true;
        Scenario.step_env false false (Some 4243) None 3700 true])
  = [EvPopen ["python"; "main.py"; "--auto-start"]; EvSleep 3600;
     EvPopen ["python"; "main.py"; "--auto-start"]].
Proof. reflexivity. Qed.

(** ** The closed-files table *)

Lemma insert_desc_In (row x : list string) (sorted : list (list string)) :
  In x (Viewer.insert_desc row sorted) <-> x = row \/ In x sorted.
Proof.
  induction sorted as [|r rest IH]; simpl.
  - intuition congruence.
  - destruct (String.ltb (Viewer.key row) (Viewer.key r)); simpl.
    + rewrite IH. intuition congruence.
    + intuition congruence.
Qed.

Lemma sort_desc_In (x : list string) (rows : list (list string)) :
  In x (Viewer.sort_desc rows) <-> In x rows.
Proof.
  induction rows as [|r rest IH]; simpl; [tauto|].
  rewrite insert_desc_In, IH. intuition congruence.
Qed.

Lemma insert_desc_length (row : list string) (sorted : list (list string)) :
  List.length (Viewer.insert_desc row sorted) = S (List.length sorted).
Proof.
  induction sorted as [|r rest IH]; simpl; [reflexivity|].
  destruct (String.ltb (Viewer.key row) (Viewer.key r)); simpl; [rewrite IH|];
    reflexivity.
Qed.

Lemma sort_desc_length (rows : list (list string)) :
  List.length (Viewer.sort_desc rows) = List.length rows.
Proof.
  induction rows as [|r rest IH]; simpl; [reflexivity|].
  rewrite insert_desc_length, IH. reflexivity.
Qed.

Lemma firstn_incl {A} (n : nat) (l : list A) (x : A) :
  In x (firstn n l) -> In x l.
Proof.
  revert l. induction n as [|n IH]; intros [|a l]; simpl; try tauto.
  intros [H|H]; [left; exact H | right; apply IH; exact H].
Qed.

Lemma slice_to_In {A} (limit : Z) (l : list A) (x : A) :
  In x (Viewer.slice_to limit l) -> In x l.
Proof.
  unfold Viewer.slice_to. destruct (0 <=? limit); apply firstn_incl.
Qed.

Lemma is_closed_iff (st : Viewer.status) :
  negb (Viewer.get (Viewer.is_open st) true) = true
  <-> Viewer.is_open st = Some false.
Proof.
  destruct (Viewer.is_open st) as [[|]|]; simpl; split; intros H;
    try reflexivity; discriminate.
Qed.

Lemma collect_closed_In (basename : string -> string) (now : Viewer.datetime)
    (row : list string) (file_status : list (string * Viewer.status)) :
  In row (Viewer.collect_closed basename now file_status)
  <-> exists path st,
        In (path, st) file_status
        /\ Viewer.is_open st = Some false
        /\ row = Viewer.closed_row basename now path st.
Proof.
  induction file_status as [|[path st] rest IH]; simpl.
  - split; [tauto | intros [p [s [[] _]]]].
  - destruct (negb (Viewer.get (Viewer.is_open st) true)) eqn:E.
    + apply is_closed_iff in E. simpl. rewrite IH. split.
      * intros [H|[p [s [Hin [Hc Hr]]]]].
        -- exists path, st. auto.
        -- exists p, s. auto.
      * intros [p [s [[Heq|Hin] [Hc Hr]]]].
        -- inversion Heq; subst. left. reflexivity.
        -- right. exists p, s. auto.
    + rewrite IH. split.
      * intros [p [s [Hin [Hc Hr]]]]. exists p, s. auto.
      * intros [p [s [[Heq|Hin] [Hc Hr]]]].
        -- inversion Heq; subst. apply is_closed_iff in Hc. congruence.
        -- exists p, s. auto.
Qed.

Lemma closed_row_columns (basename : string -> string) (now : Viewer.datetime)
    (path : string) (st : Viewer.status) :
  Viewer.closed_row basename now path st
  = [basename path;
     Viewer.get (Viewer.last_author st) "未知";
     Viewer.strftime_hms (Viewer.get (Viewer.opened_at st) now);
     Viewer.strftime_hms (Viewer.get (Viewer.opened_at st) now + 1200);
     "20分0秒"].
Proof.
  unfold Viewer.closed_row.
  replace (Viewer.get (Viewer.opened_at st) now + Viewer.minutes 20
           - Viewer.get (Viewer.opened_at st) now) with 1200
    by (unfold Viewer.minutes; lia).
  reflexivity.
Qed.

Lemma shown_when_limit_allows (basename : string -> string)
    (now : Viewer.datetime) (file_status : list (string * Viewer.status))
    (limit : Z) (row : list string) :
  len (Viewer.collect_closed basename now file_status) <= limit ->
  In row (Viewer.collect_closed basename now file_status) ->
  In row (Viewer.show_closed_files_table basename now file_status limit).
Proof.
  unfold Viewer.show_closed_files_table, Viewer.slice_to.
  destruct (Viewer.collect_closed basename now file_status) as [|r rest];
    intros Hlim Hin; [destruct Hin|].
  destruct (Z.leb_spec 0 limit) as [H|H];
    [|unfold len in Hlim; simpl List.length in Hlim; lia].
  rewrite firstn_all2.
  - apply sort_desc_In. exact Hin.
  - rewrite sort_desc_length. unfold len in Hlim. lia.
Qed.

(** C9. In the closed-files table every entry whose [is_open] is [False]
    gives a row whose close-time column is the open time plus 20 minutes
    (1200 s), printed as a time of day, and whose duration column is the
    text for exactly 20 minutes, whatever the entry holds.  That row is
    printed whenever [limit] does not cut the table, and every row that the
    table prints is such a row of such an entry. *)
Theorem closed_table_fabricates_close_time (basename : string -> string)
    (now : Viewer.datetime) (file_status : list (string * Viewer.status))
    (limit : Z) :
  (forall path st,
      In (path, st) file_status ->
      Viewer.is_open st = Some false ->
      In (Viewer.closed_row basename now path st)
         (Viewer.collect_closed basename now file_status)
      /\ nth 3 (Viewer.closed_row basename now path st) ""
         = Viewer.strftime_hms
             (Viewer.get (Viewer.opened_at st) now + Viewer.minutes 20)
      /\ nth 4 (Viewer.closed_row basename now path st) ""
         = Viewer.format_duration (Viewer.minutes 20)
      /\ Viewer.format_duration (Viewer.minutes 20) = "20分0秒")
  /\ (forall row,
      In row (Viewer.show_closed_files_table basename now file_status limit) ->
      exists path st,
        In (path, st) file_status
        /\ Viewer.is_open st = Some false
        /\ row = [basename path;
                  Viewer.get (Viewer.last_author st) "未知";
                  Viewer.strftime_hms (Viewer.get (Viewer.opened_at st) now);
                  Viewer.strftime_hms
                    (Viewer.get (Viewer.opened_at st) now + 1200);
                  "20分0秒"])
  /\ (forall path st,
      In (path, st) file_status ->
      Viewer.is_open st = Some false ->
      len (Viewer.collect_closed basename now file_status) <= limit ->
      In [basename path;
          Viewer.get (Viewer.last_author st) "未知";
          Viewer.strftime_hms (Viewer.get (Viewer.opened_at st) now);
          Viewer.strftime_hms (Viewer.get (Viewer.opened_at st) now + 1200);
          "20分0秒"]
         (Viewer.show_closed_files_table basename now file_status limit)).
Proof.
  split; [|split].
  - intros path st Hin Hclosed. split.
    + apply collect_closed_In. exists path, st. auto.
    + rewrite closed_row_columns. simpl. repeat split.
  - intros row Hrow.
    assert (Hc : In row (Viewer.collect_closed basename now file_status)).
    { unfold Viewer.show_closed_files_table in Hrow.
      destruct (Viewer.collect_closed basename now file_status) as [|r rest] eqn:E.
      - destruct Hrow.
      - apply slice_to_In in Hrow.
        apply (proj1 (sort_desc_In _ _)) in Hrow. exact Hrow. }
    apply (proj1 (collect_closed_In _ _ _ _)) in Hc.
    destruct Hc as [path [st [Hin [Hclosed Hr]]]].
    exists path, st. rewrite <- closed_row_columns. auto.
  - intros path st Hin Hclosed Hlimit.
    rewrite <- closed_row_columns.
    apply shown_when_limit_allows; [exact Hlimit|].
    apply collect_closed_In. exists path, st. auto.
Qed.

Lemma closed_table_fabricates_close_time_witness :
  (In ["Report.xlsx"; "Michael Cheng"; "12:23:20"; "12:43:20"; "20分0秒"]
      (Viewer.collect_closed (fun _ => "Report.xlsx") 50000
         (Viewer.create_mock_data 50000))
   /\ nth 3 ["Report.xlsx"; "Michael Cheng"; "12:23:20"; "12:43:20"; "20分0秒"] ""
      = "12:43:20"
   /\ nth 4 ["Report.xlsx"; "Michael Cheng"; "12:23:20"; "12:43:20"; "20分0秒"] ""
      = "20分0秒"
   /\ Viewer.format_duration (Viewer.minutes 20) = "20分0秒")
  /\ (exists path st,
       In (path, st) (Viewer.create_mock_data 50000)
       /\ Viewer.is_open st = Some false
       /\ ["Report.xlsx"; "Michael Cheng"; "12:23:20"; "12:43:20"; "20分0秒"]
          = [(fun _ : string => "Report.xlsx") path;
             Viewer.get (Viewer.last_author st) "未知";
             Viewer.strftime_hms (Viewer.get (Viewer.opened_at st) 50000);
             Viewer.strftime_hms (Viewer.get (Viewer.opened_at st) 50000 + 1200);
             "20分0秒"])
  /\ In ["Report.xlsx"; "Michael Cheng"; "12:23:20"; "12:43:20"; "20分0秒"]
        (Viewer.show_closed_files_table (fun _ => "Report.xlsx") 50000
           (Viewer.create_mock_data 50000) 10).
Proof.
  split; [|split].
  - apply (proj1 (closed_table_fabricates_close_time (fun _ => "Report.xlsx")
                    50000 (Viewer.create_mock_data 50000) 10)
             "C:\Users\user\Desktop\Test\Report.xlsx"
             {| Viewer.is_open := Some false;
                Viewer.temp_files := Some [];
                Viewer.opened_at := Some (50000 - (3600 + Viewer.minutes 30));
                Viewer.last_author := Some "Michael Cheng" |}).
    + simpl. auto 10.
    + reflexivity.
  - apply (proj1 (proj2 (closed_table_fabricates_close_time
                           (fun _ => "Report.xlsx")
                           50000 (Viewer.create_mock_data 50000) 10))).
    vm_compute. auto.
  - apply (proj2 (proj2 (closed_table_fabricates_close_time
                           (fun _ => "Report.xlsx")
                           50000 (Viewer.create_mock_data 50000) 10))
             "C:\Users\user\Desktop\Test\Report.xlsx"
             {| Viewer.is_open := Some false;
                Viewer.temp_files := Some [];
                Viewer.opened_at := Some (50000 - (3600 + Viewer.minutes 30));
                Viewer.last_author := Some "Michael Cheng" |}).
    + simpl. auto 10.
    + reflexivity.
    + vm_compute. discriminate.
Defined.

(** * Further properties of the code *)

(** ** The limiter over time *)

Lemma prune_app (now : Z) (a b : list Z) :
  prune now (a ++ b) = prune now a ++ prune now b.
Proof. unfold prune. apply filter_app. Qed.

Lemma len_app {A} (a b : list A) : len (a ++ b) = len a + len b.
Proof. unfold len. rewrite length_app. lia. Qed.

Lemma len_nonneg {A} (l : list A) : 0 <= len l.
Proof. unfold len. lia. Qed.

Lemma prune_all_old (now : Z) (history : list Z) :
  (forall t, In t history -> t + 3600 <= now) -> prune now history = [].
Proof.
  induction history as [|t h IH]; intros Hold; simpl; [reflexivity|].
  destruct (Z.ltb_spec (now - one_hour) t) as [Hlt|Hge].
  - specialize (Hold t (or_introl eq_refl)). unfold one_hour in Hlt. lia.
  - apply IH. intros u Hu. apply Hold. right. exact Hu.
Qed.

(** X1. Pruning at a later time subsumes pruning at an earlier one: checks
    made at successive times leave the same history as the last check alone,
    so an event inside the current window is never lost to an earlier
    check; in particular pruning twice at one time changes nothing more. *)
Theorem prune_later_subsumes_earlier (now later : Z) (history : list Z)
    (Horder : now <= later) :
  prune later (prune now history) = prune later history
  /\ prune now (prune now history) = prune now history.
Proof.
  split.
  - induction history as [|t h IH]; simpl; [reflexivity|].
    destruct (Z.ltb_spec (now - one_hour) t) as [H1|H1]; simpl.
    + rewrite IH. reflexivity.
    + destruct (Z.ltb_spec (later - one_hour) t) as [H2|H2]; [lia|exact IH].
  - induction history as [|t h IH]; simpl; [reflexivity|].
    destruct (Z.ltb_spec (now - one_hour) t) as [H1|H1]; simpl.
    + destruct (Z.ltb_spec (now - one_hour) t); [|lia]. rewrite IH. reflexivity.
    + exact IH.
Qed.

Lemma prune_later_subsumes_earlier_witness :
  prune 10000 (prune 9000 [5000; 6000; 7000]) = prune 10000 [5000; 6000; 7000]
  /\ prune 9000 (prune 9000 [5000; 6000; 7000]) = prune 9000 [5000; 6000; 7000].
Proof.
  apply (prune_later_subsumes_earlier 9000 10000 [5000; 6000; 7000]).
  lia.
Defined.

(** X2. The monitor's limiter recovers by itself: once every recorded
    restart is at least one hour old and the limit is positive, the check
    admits the restart and leaves the history empty. *)
Theorem monitor_limiter_recovers (m : Monitor.WatchdogMonitor) (now : Z)
    (Hlimit : 0 < Monitor.max_restarts_per_hour m)
    (Hold : forall t, In t (Monitor.restart_history m) -> t + 3600 <= now) :
  Monitor.check_restart_limit m now
  = (true, Monitor.LimitNormal, Monitor.set_history m []).
Proof.
  unfold Monitor.check_restart_limit. rewrite (prune_all_old now _ Hold).
  simpl. destruct (Z.leb_spec (Monitor.max_restarts_per_hour m) (len (@nil Z)));
    [|reflexivity].
  unfold len in *. simpl in *. lia.
Qed.

Lemma monitor_limiter_recovers_witness :
  Monitor.check_restart_limit Scenario.five_recent 13400
  = (true, Monitor.LimitNormal, Monitor.set_history Scenario.five_recent []).
Proof.
  apply (monitor_limiter_recovers Scenario.five_recent 13400).
  - reflexivity.
  - simpl. intros t H. repeat (destruct H as [H|H]; [subst; lia|]). destruct H.
Defined.

(** X3. The guardian's limiter counts the exit it is handling: with the
    exit time inside the window, the check made after a worker has ended
    denies exactly when the earlier events still in the window, plus one,
    reach the limit.  So a limit of [n] lets at most [n - 1] exits in an
    hour go by without the back-off. *)
Theorem guardian_limiter_counts_current_exit (g : Guardian.WatchdogGuardian)
    (exit_time check_time : Z)
    (Hrecent : check_time - 3600 < exit_time) :
  fst (Guardian.is_too_many_restarts
         (Guardian.set_times g (Guardian.restart_times g ++ [exit_time]))
         check_time) = true
  <-> Guardian.max_restarts_per_hour g
      <= len (prune check_time (Guardian.restart_times g)) + 1.
Proof.
  unfold Guardian.is_too_many_restarts; simpl.
  rewrite prune_app, len_app. simpl.
  destruct (Z.ltb_spec (check_time - one_hour) exit_time) as [H|H];
    [|unfold one_hour in H; lia].
  rewrite Z.leb_le. unfold len; simpl. lia.
Qed.

Lemma guardian_limiter_counts_current_exit_witness :
  fst (Guardian.is_too_many_restarts
         (Guardian.set_times
            {| Guardian.watchdog_script := "main.py";
               Guardian.restart_delay := 5;
               Guardian.max_restarts_per_hour := 1;
               Guardian.restart_times := [];
               Guardian.process := None |}
            ([] ++ [100]))
         100) = true
  <-> 1 <= len (prune 100 []) + 1.
Proof.
  apply (guardian_limiter_counts_current_exit
           {| Guardian.watchdog_script := "main.py";
              Guardian.restart_delay := 5;
              Guardian.max_restarts_per_hour := 1;
              Guardian.restart_times := [];
              Guardian.process := None |} 100 100).
  lia.
Defined.

(** ** The process scan and the heartbeat record *)

(** X4. [check_process_exists] reports the first entry of the enumeration
    whose command line matches, together with its process id: entries that
    have vanished, that deny access or that show no command line are passed
    over without ending the scan, and when nothing matches (or the
    enumeration itself raises) the answer is [(False, None)]. *)
Theorem check_process_exists_first_match (m : Monitor.WatchdogMonitor) :
  Monitor.check_process_exists m None = (false, None)
  /\ forall table : list Monitor.proc_entry,
       match Monitor.check_process_exists m (Some table) with
       | (true, Some p) =>
           exists before cmdline after,
             table = before ++ Monitor.ProcInfo p (Some cmdline) :: after
             /\ Monitor.entry_matches m cmdline = true
             /\ forall q c, In (Monitor.ProcInfo q (Some c)) before ->
                            Monitor.entry_matches m c = false
       | (false, None) =>
           forall q c, In (Monitor.ProcInfo q (Some c)) table ->
                       Monitor.entry_matches m c = false
       | _ => False
       end.
Proof.
  split; [reflexivity|].
  induction table as [|entry rest IH]; simpl.
  - intros q c [].
  - simpl in IH.
    assert (Hskip :
      (forall q c, Monitor.ProcInfo q (Some c) <> entry) ->
      match Monitor.scan m rest with
      | (true, Some p) =>
          exists before cmdline after,
            entry :: rest = before ++ Monitor.ProcInfo p (Some cmdline) :: after
            /\ Monitor.entry_matches m cmdline = true
            /\ forall q c, In (Monitor.ProcInfo q (Some c)) before ->
                           Monitor.entry_matches m c = false
      | (false, None) =>
          forall q c, In (Monitor.ProcInfo q (Some c)) (entry :: rest) ->
                      Monitor.entry_matches m c = false
      | _ => False
      end).
    { intros Hne.
      destruct (Monitor.scan m rest) as [[|] [p|]]; try exact IH.
      - destruct IH as [before [cmdline [after [Heq [Hm Hb]]]]].
        exists (entry :: before), cmdline, after. split; [rewrite Heq; reflexivity|].
        split; [exact Hm|].
        intros q c [H|H]; [symmetry in H; destruct (Hne q c H) | eapply Hb; exact H].
      - intros q c [H|H]; [symmetry in H; destruct (Hne q c H) | eapply IH; exact H]. }
    destruct entry as [p [cmdline|] | p | p]; try (apply Hskip; discriminate).
    destruct (Monitor.entry_matches m cmdline) eqn:E.
    + exists [], cmdline, rest. split; [reflexivity|]. split; [exact E|].
      intros q c [].
    + destruct (Monitor.scan m rest) as [[|] [q|]]; try exact IH.
      * destruct IH as [before [cmd [after [Heq [Hm Hb]]]]].
        exists (Monitor.ProcInfo p (Some cmdline) :: before), cmd, after.
        split; [rewrite Heq; reflexivity|]. split; [exact Hm|].
        intros q0 c [H|H]; [inversion H; subst; exact E | eapply Hb; exact H].
      * intros q0 c [H|H]; [inversion H; subst; exact E | eapply IH; exact H].
Qed.

(** X5. A heartbeat record whose [timestamp] is present but is not a number
    (a string, [null], a list or an object) is reported as a failure to
    read the file, at every time, although the file exists and parses. *)
Theorem heartbeat_timestamp_must_be_number (m : Monitor.WatchdogMonitor)
    (fields : list (string * json)) (v : json) (now : Z)
    (Hts : dict_lookup "timestamp" fields = Some v)
    (Hkind : v = JNull \/ (exists s, v = JStr s) \/ (exists l, v = JArr l)
             \/ (exists f, v = JObj f)) :
  Monitor.check_heartbeat m (FileJson (JObj fields)) now
  = (false, Monitor.HbReadFailed).
Proof.
  unfold Monitor.check_heartbeat, json_get. rewrite Hts.
  destruct Hkind as [->|[[s ->]|[[l ->]|[f ->]]]]; reflexivity.
Qed.

Lemma heartbeat_timestamp_must_be_number_witness :
  Monitor.check_heartbeat Monitor.init
    (FileJson (JObj [("timestamp", JStr "1700000000")])) 1700000001
  = (false, Monitor.HbReadFailed).
Proof.
  apply (heartbeat_timestamp_must_be_number Monitor.init
           [("timestamp", JStr "1700000000")] (JStr "1700000000") 1700000001).
  - reflexivity.
  - right. left. exists "1700000000". reflexivity.
Defined.

(** ** Invariants of the monitor loop *)

Lemma monitor_pass_history_bound (m : Monitor.WatchdogMonitor) (w : world)
    (e : Monitor.env) :
  len (Monitor.restart_history m) <= Monitor.max_restarts_per_hour m ->
  let m1 := fst (fst (Monitor.monitor_pass m w e)) in
  len (Monitor.restart_history m1) <= Monitor.max_restarts_per_hour m1
  /\ Monitor.max_restarts_per_hour m1 = Monitor.max_restarts_per_hour m.
Proof.
  intros Hb.
  pose proof (prune_length_le (Monitor.limit_now e) (Monitor.restart_history m))
    as Hp.
  unfold Monitor.monitor_pass, Monitor.restart_main_program,
    Monitor.check_restart_limit.
  destruct (Monitor.interrupt e); [simpl; auto|].
  destruct (Monitor.failure e); [simpl; auto|].
  destruct (Monitor.check_process_exists m (Monitor.table e)) as [ex q].
  destruct (Monitor.check_heartbeat m (Monitor.hb_file e) (Monitor.time_now e))
    as [ok msg].
  destruct (negb ex || negb ok); [|simpl; auto].
  simpl.
  destruct (Z.leb_spec (Monitor.max_restarts_per_hour m)
              (len (prune (Monitor.limit_now e) (Monitor.restart_history m))))
    as [Hle|Hlt]; simpl.
  - split; [lia|reflexivity].
  - destruct (Monitor.check_process_exists _ (Monitor.table_restart e))
      as [[|] [p|]];
      try destruct (Monitor.terminate_existing _ _ _);
      destruct (Monitor.popen_result e); simpl;
      rewrite ?len_app; unfold len in *; simpl; split; try reflexivity; lia.
Qed.

(** X6. The monitor's restart history stays bounded: if it holds at most
    [max_restarts_per_hour] events when the loop starts (it starts empty),
    it holds at most that many after any number of passes, whatever the
    environment does. *)
Theorem monitor_history_stays_bounded :
  forall (envs : list Monitor.env) (m : Monitor.WatchdogMonitor) (w : world),
    len (Monitor.restart_history m) <= Monitor.max_restarts_per_hour m ->
    len (Monitor.restart_history (fst (fst (Monitor.monitor_loop m w envs))))
    <= Monitor.max_restarts_per_hour m.
Proof.
  induction envs as [|e rest IH]; intros m w Hb; simpl; [exact Hb|].
  destruct (Monitor.running m); [|exact Hb].
  pose proof (monitor_pass_history_bound m w e Hb) as Hstep.
  destruct (Monitor.monitor_pass m w e) as [[m1 w1] ev1]. simpl in Hstep.
  destruct Hstep as [Hb1 Hmax].
  specialize (IH m1 w1 Hb1).
  destruct (Monitor.monitor_loop m1 w1 rest) as [[m2 w2] ev2]. simpl in *.
  lia.
Qed.

Lemma monitor_history_stays_bounded_witness :
  len (Monitor.restart_history
         (fst (fst (Monitor.monitor_loop Scenario.five_recent
                      Scenario.empty_world
                      [Scenario.worker_missing; Scenario.worker_missing]))))
  <= Monitor.max_restarts_per_hour Scenario.five_recent.
Proof.
  apply (monitor_history_stays_bounded
           [Scenario.worker_missing; Scenario.worker_missing]
           Scenario.five_recent Scenario.empty_world).
  vm_compute. discriminate.
Defined.

Lemma monitor_pass_count (m : Monitor.WatchdogMonitor) (w : world)
    (e : Monitor.env) :
  Monitor.restart_count (fst (fst (Monitor.monitor_pass m w e)))
  = Monitor.restart_count m
    + len (filter is_success (trace_of (Monitor.monitor_pass m w e))).
Proof.
  unfold trace_of, Monitor.monitor_pass, Monitor.restart_main_program,
    Monitor.check_restart_limit.
  destruct (Monitor.interrupt e); [simpl; unfold len; simpl; lia|].
  destruct (Monitor.failure e); [simpl; unfold len; simpl; lia|].
  destruct (Monitor.check_process_exists m (Monitor.table e)) as [ex q].
  destruct (Monitor.check_heartbeat m (Monitor.hb_file e) (Monitor.time_now e))
    as [ok msg].
  destruct (negb ex || negb ok); [|simpl; unfold len; simpl; lia].
  simpl. destruct (_ <=? _); simpl; [unfold len; simpl; lia|].
  destruct (Monitor.check_process_exists _ (Monitor.table_restart e))
    as [[|] [p|]];
    try destruct (Monitor.stop_result e);
    destruct (Monitor.popen_result e); simpl; unfold len; simpl; lia.
Qed.

(** X7. The monitor's [restart_count] counts its successful restarts: after
    any number of passes it has grown by exactly the number of success
    notifications sent, so failed launches and denied restarts are never
    counted. *)
Theorem monitor_restart_count_counts_successes :
  forall (envs : list Monitor.env) (m : Monitor.WatchdogMonitor) (w : world),
    Monitor.restart_count (fst (fst (Monitor.monitor_loop m w envs)))
    = Monitor.restart_count m
      + len (filter is_success (trace_of (Monitor.monitor_loop m w envs))).
Proof.
  induction envs as [|e rest IH]; intros m w; simpl.
  - unfold len; simpl; lia.
  - destruct (Monitor.running m); [|unfold len; simpl; lia].
    pose proof (monitor_pass_count m w e) as Hstep.
    destruct (Monitor.monitor_pass m w e) as [[m1 w1] ev1].
    specialize (IH m1 w1).
    destruct (Monitor.monitor_loop m1 w1 rest) as [[m2 w2] ev2].
    unfold trace_of in *; simpl in *.
    rewrite filter_app, len_app. lia.
Qed.

(** X8. In a pass that nothing interrupts, the monitor attempts a launch
    exactly when the worker is missing from the process table or its
    heartbeat is not healthy, and the limiter admits the restart.  When the
    worker is present and healthy the pass changes nothing, not even by
    pruning the history, and only sleeps the check interval. *)
Theorem monitor_launches_iff_unhealthy_and_admitted
    (m : Monitor.WatchdogMonitor) (w : world) (e : Monitor.env)
    (Hint : Monitor.interrupt e = false)
    (Hfail : Monitor.failure e = false) :
  (existsb is_launch (trace_of (Monitor.monitor_pass m w e)) = true
   <-> (fst (Monitor.check_process_exists m (Monitor.table e)) = false
        \/ fst (Monitor.check_heartbeat m (Monitor.hb_file e)
                  (Monitor.time_now e)) = false)
       /\ fst (fst (Monitor.check_restart_limit m (Monitor.limit_now e))) = true)
  /\ (fst (Monitor.check_process_exists m (Monitor.table e)) = true ->
      fst (Monitor.check_heartbeat m (Monitor.hb_file e) (Monitor.time_now e))
      = true ->
      Monitor.monitor_pass m w e = (m, w, [EvSleep (Monitor.check_interval m)])).
Proof.
  unfold trace_of, Monitor.monitor_pass, Monitor.restart_main_program,
    Monitor.check_restart_limit.
  rewrite Hint, Hfail.
  destruct (Monitor.check_process_exists m (Monitor.table e)) as [ex q].
  destruct (Monitor.check_heartbeat m (Monitor.hb_file e) (Monitor.time_now e))
    as [ok msg].
  simpl.
  destruct ex, ok; simpl;
    (split; [|intros; try reflexivity; discriminate]);
    try (split; [discriminate | intros [[H|H] _]; discriminate]);
    destruct (_ <=? _); simpl;
    try (split; [discriminate | intros [_ H]; discriminate]);
    destruct (Monitor.check_process_exists _ (Monitor.table_restart e))
      as [[|] [p|]];
    try destruct (Monitor.stop_result e);
    destruct (Monitor.popen_result e); simpl; split; auto.
Qed.

Lemma monitor_launches_iff_unhealthy_and_admitted_witness :
  (existsb is_launch
     (trace_of (Monitor.monitor_pass Monitor.init Scenario.empty_world
                  Scenario.worker_missing)) = true
   <-> (fst (Monitor.check_process_exists Monitor.init
               (Monitor.table Scenario.worker_missing)) = false
        \/ fst (Monitor.check_heartbeat Monitor.init
                  (Monitor.hb_file Scenario.worker_missing)
                  (Monitor.time_now Scenario.worker_missing)) = false)
       /\ fst (fst (Monitor.check_restart_limit Monitor.init
                      (Monitor.limit_now Scenario.worker_missing))) = true)
  /\ (fst (Monitor.check_process_exists Monitor.init
             (Monitor.table Scenario.worker_missing)) = true ->
      fst (Monitor.check_heartbeat Monitor.init
             (Monitor.hb_file Scenario.worker_missing)
             (Monitor.time_now Scenario.worker_missing)) = true ->
      Monitor.monitor_pass Monitor.init Scenario.empty_world
        Scenario.worker_missing
      = (Monitor.init, Scenario.empty_world,
         [EvSleep (Monitor.check_interval Monitor.init)])).
Proof.
  apply (monitor_launches_iff_unhealthy_and_admitted Monitor.init
           Scenario.empty_world Scenario.worker_missing); reflexivity.
Defined.

Lemma scan_ignores_history (m : Monitor.WatchdogMonitor) (h : list Z)
    (table : option (list Monitor.proc_entry)) :
  Monitor.check_process_exists (Monitor.set_history m h) table
  = Monitor.check_process_exists m table.
Proof.
  destruct table as [t|]; [|reflexivity]. simpl.
  assert (E : forall c, Monitor.entry_matches (Monitor.set_history m h) c
                        = Monitor.entry_matches m c).
  { intros [|c0 [|c1 c]]; reflexivity. }
  induction t as [|[p [c|] | p | p] rest IH]; simpl; try exact IH; try reflexivity.
  rewrite E, IH. reflexivity.
Qed.

Lemma monitor_pass_never_kills (m : Monitor.WatchdogMonitor) (w : world)
    (e : Monitor.env) :
  existsb is_kill (trace_of (Monitor.monitor_pass m w e)) = false.
Proof.
  unfold trace_of, Monitor.monitor_pass, Monitor.restart_main_program,
    Monitor.check_restart_limit.
  destruct (Monitor.interrupt e); [reflexivity|].
  destruct (Monitor.failure e); [reflexivity|].
  destruct (Monitor.check_process_exists m (Monitor.table e)) as [ex q].
  destruct (Monitor.check_heartbeat m (Monitor.hb_file e) (Monitor.time_now e))
    as [ok msg].
  destruct (negb ex || negb ok); [|reflexivity].
  simpl. destruct (_ <=? _); simpl; [reflexivity|].
  destruct (Monitor.check_process_exists _ (Monitor.table_restart e))
    as [[|] [p|]];
    try destruct (Monitor.stop_result e);
    destruct (Monitor.popen_result e); reflexivity.
Qed.

(** X9. The monitor never issues a forced kill, in any pass of its loop and
    whatever the environment does; and a termination request in a pass is
    only ever sent to the process that the scan made for the restart
    reported as the worker. *)
Theorem monitor_never_kills :
  (forall (envs : list Monitor.env) (m : Monitor.WatchdogMonitor) (w : world),
      existsb is_kill (trace_of (Monitor.monitor_loop m w envs)) = false)
  /\ (forall (m : Monitor.WatchdogMonitor) (w : world) (e : Monitor.env) (p : pid),
      In (EvTerminate p) (trace_of (Monitor.monitor_pass m w e)) ->
      Monitor.check_process_exists m (Monitor.table_restart e) = (true, Some p)).
Proof.
  split.
  - induction envs as [|e rest IH]; intros m w; simpl; [reflexivity|].
    destruct (Monitor.running m); [|reflexivity].
    pose proof (monitor_pass_never_kills m w e) as Hstep.
    destruct (Monitor.monitor_pass m w e) as [[m1 w1] ev1].
    specialize (IH m1 w1).
    destruct (Monitor.monitor_loop m1 w1 rest) as [[m2 w2] ev2].
    unfold trace_of in *; simpl in *.
    rewrite existsb_app, Hstep, IH. reflexivity.
  - intros m w e p.
    unfold trace_of, Monitor.monitor_pass, Monitor.restart_main_program,
      Monitor.check_restart_limit.
    destruct (Monitor.interrupt e); [intros []|].
    destruct (Monitor.failure e); [simpl; intros [H|[]]; discriminate|].
    destruct (Monitor.check_process_exists m (Monitor.table e)) as [ex q].
    destruct (Monitor.check_heartbeat m (Monitor.hb_file e) (Monitor.time_now e))
      as [ok msg].
    destruct (negb ex || negb ok); [|simpl; intros [H|[]]; discriminate].
    simpl. destruct (_ <=? _); simpl; [intros [H|[]]; discriminate|].
    rewrite scan_ignores_history.
    destruct (Monitor.check_process_exists m (Monitor.table_restart e))
      as [[|] [p0|]];
      try destruct (Monitor.stop_result e);
      destruct (Monitor.popen_result e); simpl; intros H;
      repeat (destruct H as [H|H]; [try discriminate; inversion H; subst; reflexivity|]);
      destruct H.
Qed.

Lemma monitor_never_kills_witness :
  Monitor.check_process_exists Monitor.init
    (Monitor.table_restart Scenario.worker_hung)
  = (true, Some 4100).
Proof.
  apply (proj2 monitor_never_kills Monitor.init (Scenario.world_with 4100)
           Scenario.worker_hung 4100).
  simpl. auto.
Defined.

Lemma monitor_pass_running (m : Monitor.WatchdogMonitor) (w : world)
    (e : Monitor.env) :
  Monitor.running (fst (fst (Monitor.monitor_pass m w e)))
  = if Monitor.interrupt e then false else Monitor.running m.
Proof.
  unfold Monitor.monitor_pass, Monitor.restart_main_program,
    Monitor.check_restart_limit.
  destruct (Monitor.interrupt e); [reflexivity|].
  destruct (Monitor.failure e); [reflexivity|].
  destruct (Monitor.check_process_exists m (Monitor.table e)) as [ex q].
  destruct (Monitor.check_heartbeat m (Monitor.hb_file e) (Monitor.time_now e))
    as [ok msg].
  destruct (negb ex || negb ok); [|reflexivity].
  simpl. destruct (_ <=? _); simpl; [reflexivity|].
  destruct (Monitor.check_process_exists _ (Monitor.table_restart e))
    as [[|] [p|]];
    try destruct (Monitor.terminate_existing _ _ _);
    destruct (Monitor.popen_result e); reflexivity.
Qed.

(** X10. The monitor loop is left only through an interrupt: started with
    [running] set, it has cleared [running] after a sequence of passes
    exactly when one of them was interrupted; failed scans, unreadable
    heartbeats, denied or failed restarts and other exceptions never end
    it. *)
Theorem monitor_loop_ends_only_on_interrupt :
  forall (envs : list Monitor.env) (m : Monitor.WatchdogMonitor) (w : world),
    Monitor.running m = true ->
    (Monitor.running (fst (fst (Monitor.monitor_loop m w envs))) = false
     <-> Exists (fun e => Monitor.interrupt e = true) envs).
Proof.
  induction envs as [|e rest IH]; intros m w Hrun; simpl.
  - rewrite Hrun. split; [discriminate | intros H; inversion H].
  - rewrite Hrun.
    pose proof (monitor_pass_running m w e) as Hstep.
    destruct (Monitor.monitor_pass m w e) as [[m1 w1] ev1]. simpl in Hstep.
    destruct (Monitor.interrupt e) eqn:Hint.
    + rewrite (monitor_loop_not_running rest m1 w1 Hstep). simpl.
      split; [intros _; left; exact Hint | intros _; exact Hstep].
    + rewrite Hrun in Hstep. specialize (IH m1 w1 Hstep).
      destruct (Monitor.monitor_loop m1 w1 rest) as [[m2 w2] ev2]. simpl in *.
      rewrite IH. split.
      * intros H. right. exact H.
      * intros H. inversion H; subst; [congruence | assumption].
Qed.

Lemma monitor_loop_ends_only_on_interrupt_witness :
  Monitor.running
    (fst (fst (Monitor.monitor_loop Monitor.init Scenario.empty_world
                 [Scenario.launch_fails; Scenario.interrupted]))) = false
  <-> Exists (fun e => Monitor.interrupt e = true)
        [Scenario.launch_fails; Scenario.interrupted].
Proof.
  apply (monitor_loop_ends_only_on_interrupt
           [Scenario.launch_fails; Scenario.interrupted]
           Monitor.init Scenario.empty_world).
  reflexivity.
Defined.

(** ** Invariants of the guardian loop *)

Lemma guardian_step_within_limit (s : Guardian.loop_state) (w : world)
    (e : Guardian.env) :
  within_limit (Guardian.self s) ->
  within_limit (Guardian.self (fst (fst (Guardian.run_step s w e)))).
Proof.
  intros H.
  unfold Guardian.run_step, Guardian.monitor_output, Guardian.after_exit, Guardian.start_watchdog,
    Guardian.is_too_many_restarts.
  destruct (Guardian.at_phase s); split_cases; simpl; try exact H.
  - left. reflexivity.
  - right. simpl. apply Z.leb_gt. assumption.
Qed.

(** X11. The guardian's restart history stays below the limit: if at the
    start it is empty or shorter than [max_restarts_per_hour], then after
    any number of steps it is again empty or shorter than the limit,
    whatever the environment does. *)
Theorem guardian_history_stays_below_limit :
  forall (envs : list Guardian.env) (s : Guardian.loop_state) (w : world),
    within_limit (Guardian.self s) ->
    within_limit (Guardian.self (fst (fst (Guardian.run s w envs)))).
Proof.
  induction envs as [|e rest IH]; intros s w H; simpl; [exact H|].
  pose proof (guardian_step_within_limit s w e H) as Hstep.
  destruct (Guardian.run_step s w e) as [[s1 w1] ev1]. simpl in Hstep.
  specialize (IH s1 w1 Hstep).
  destruct (Guardian.run s1 w1 rest) as [[s2 w2] ev2]. exact IH.
Qed.

Lemma guardian_history_stays_below_limit_witness :
  within_limit
    (Guardian.self
       (fst (fst (Guardian.run (Guardian.start_state Guardian.init)
                    Scenario.empty_world
                    [Scenario.step_env false false (Some 4242) None 100 true;
                     Scenario.step_env false false None (Some 1) 100 true])))).
Proof.
  apply (guardian_history_stays_below_limit
           [Scenario.step_env false false (Some 4242) None 100 true;
            Scenario.step_env false false None (Some 1) 100 true]
           (Guardian.start_state Guardian.init) Scenario.empty_world).
  left. reflexivity.
Defined.

Lemma guardian_step_no_interrupt (s : Guardian.loop_state) (w : world)
    (e : Guardian.env) :
  Guardian.interrupt e = false ->
  Guardian.at_phase s <> Guardian.Stopped ->
  Guardian.at_phase (fst (fst (Guardian.run_step s w e))) <> Guardian.Stopped
  /\ existsb is_stop_action (trace_of (Guardian.run_step s w e)) = false.
Proof.
  intros Hint Hph.
  unfold trace_of, Guardian.run_step, Guardian.monitor_output, Guardian.after_exit,
    Guardian.start_watchdog, Guardian.is_too_many_restarts.
  rewrite Hint.
  destruct (Guardian.at_phase s) eqn:E; try congruence;
    split_cases; simpl; rewrite ?E; split; try reflexivity; discriminate.
Qed.

(** X12. Without an interrupt the guardian loop never ends and never stops
    a worker: from any control point inside the loop, a sequence of steps
    in which no interrupt arrives stays inside the loop and sends neither a
    termination request nor a forced kill, whatever else happens (failed
    launches, worker exits, back-off, other exceptions). *)
Theorem guardian_runs_until_interrupted :
  forall (envs : list Guardian.env) (s : Guardian.loop_state) (w : world),
    Guardian.at_phase s <> Guardian.Stopped ->
    Forall (fun e => Guardian.interrupt e = false) envs ->
    Guardian.at_phase (fst (fst (Guardian.run s w envs))) <> Guardian.Stopped
    /\ existsb is_stop_action (trace_of (Guardian.run s w envs)) = false.
Proof.
  induction envs as [|e rest IH]; intros s w Hph Hall; simpl.
  - split; [exact Hph | reflexivity].
  - inversion Hall as [|e' rest' Hint Hrest]; subst.
    pose proof (guardian_step_no_interrupt s w e Hint Hph) as Hstep.
    destruct (Guardian.run_step s w e) as [[s1 w1] ev1].
    unfold trace_of in Hstep; simpl in Hstep. destruct Hstep as [Hph1 Hev1].
    specialize (IH s1 w1 Hph1 Hrest).
    destruct (Guardian.run s1 w1 rest) as [[s2 w2] ev2].
    unfold trace_of in *; simpl in *. destruct IH as [Hph2 Hev2].
    split; [exact Hph2|]. rewrite existsb_app, Hev1, Hev2. reflexivity.
Qed.

Lemma guardian_runs_until_interrupted_witness :
  Guardian.at_phase
    (fst (fst (Guardian.run (Guardian.start_state Guardian.init)
                 Scenario.empty_world
                 [Scenario.step_env false false None None 100 true;
                  Scenario.step_env false true None None 100 true])))
  <> Guardian.Stopped
  /\ existsb is_stop_action
       (trace_of (Guardian.run (Guardian.start_state Guardian.init)
                    Scenario.empty_world
                    [Scenario.step_env false false None None 100 true;
                     Scenario.step_env false true None None 100 true]))
     = false.
Proof.
  apply (guardian_runs_until_interrupted
           [Scenario.step_env false false None None 100 true;
            Scenario.step_env false true None None 100 true]
           (Guardian.start_state Guardian.init) Scenario.empty_world).
  - discriminate.
  - repeat constructor.
Defined.




(** ** The tables of the viewer *)

Lemma slice_to_length {A} (limit : Z) (l : list A) :
  len (Viewer.slice_to limit l)
  = if 0 <=? limit then Z.min limit (len l) else Z.max 0 (len l + limit).
Proof.
  unfold Viewer.slice_to, len.
  destruct (Z.leb_spec 0 limit); rewrite length_firstn; lia.
Qed.

Lemma is_shown_open_iff (st : Viewer.status) :
  Viewer.get (Viewer.is_open st) false = true
  <-> Viewer.is_open st = Some true.
Proof.
  destruct (Viewer.is_open st) as [[|]|]; simpl; split; intros H;
    try reflexivity; discriminate.
Qed.

Lemma collect_open_In (basename : string -> string) (now : Viewer.datetime)
    (row : list string) (file_status : list (string * Viewer.status)) :
  In row (Viewer.collect_open basename now file_status)
  <-> exists path st,
        In (path, st) file_status
        /\ Viewer.is_open st = Some true
        /\ row = Viewer.open_row basename now path st.
Proof.
  induction file_status as [|[path st] rest IH]; simpl.
  - split; [tauto | intros [p [s [[] _]]]].
  - destruct (Viewer.get (Viewer.is_open st) false) eqn:E.
    + apply is_shown_open_iff in E. simpl. rewrite IH. split.
      * intros [H|[p [s [Hin [Hc Hr]]]]].
        -- exists path, st. auto.
        -- exists p, s. auto.
      * intros [p [s [[Heq|Hin] [Hc Hr]]]].
        -- inversion Heq; subst. left. reflexivity.
        -- right. exists p, s. auto.
    + rewrite IH. split.
      * intros [p [s [Hin [Hc Hr]]]]. exists p, s. auto.
      * intros [p [s [[Heq|Hin] [Hc Hr]]]].
        -- inversion Heq; subst. apply is_shown_open_iff in Hc. congruence.
        -- exists p, s. auto.
Qed.

Lemma shown_closed_length (basename : string -> string)
    (now : Viewer.datetime) (file_status : list (string * Viewer.status))
    (limit : Z) :
  len (Viewer.collect_closed basename now file_status) <= limit ->
  len (Viewer.show_closed_files_table basename now file_status limit)
  = len (Viewer.collect_closed basename now file_status).
Proof.
  unfold Viewer.show_closed_files_table. intros Hlim.
  destruct (Viewer.collect_closed basename now file_status) as [|r rest];
    [reflexivity|].
  rewrite slice_to_length.
  assert (Hs : len (Viewer.sort_desc (r :: rest)) = len (r :: rest))
    by (unfold len; rewrite sort_desc_length; reflexivity).
  rewrite Hs. pose proof (len_nonneg (r :: rest)).
  destruct (Z.leb_spec 0 limit); lia.
Qed.

(** X14. When [limit] is at least the number of closed entries, so that the
    closed-files table is not cut, the two printed tables split the status
    dict: an entry whose [is_open] is [True] has its row in the open table,
    one whose [is_open] is [False] has its row in the closed table, every
    printed row comes from such an entry, and the rows of both tables
    together with the entries that lack the key [is_open] are as many as
    the entries.  An entry without the key is therefore listed in neither
    table: the open table reads a missing key as closed and the closed
    table reads it as open. *)
Theorem tables_split_entries (basename : string -> string)
    (now : Viewer.datetime) (file_status : list (string * Viewer.status))
    (limit : Z)
    (Hlimit : len (Viewer.collect_closed basename now file_status) <= limit) :
  len (Viewer.show_open_files_table basename now file_status)
  + len (Viewer.show_closed_files_table basename now file_status limit)
  + len (filter lacks_is_open file_status)
  = len file_status
  /\ (forall path st,
      In (path, st) file_status ->
      Viewer.is_open st = Some true ->
      In (Viewer.open_row basename now path st)
         (Viewer.show_open_files_table basename now file_status))
  /\ (forall path st,
      In (path, st) file_status ->
      Viewer.is_open st = Some false ->
      In (Viewer.closed_row basename now path st)
         (Viewer.show_closed_files_table basename now file_status limit))
  /\ (forall row,
      In row (Viewer.show_open_files_table basename now file_status) ->
      exists path st,
        In (path, st) file_status
        /\ Viewer.is_open st = Some true
        /\ row = Viewer.open_row basename now path st)
  /\ (forall row,
      In row (Viewer.show_closed_files_table basename now file_status limit) ->
      exists path st,
        In (path, st) file_status
        /\ Viewer.is_open st = Some false
        /\ row = Viewer.closed_row basename now path st).
Proof.
  repeat split.
  - rewrite (shown_closed_length basename now file_status limit Hlimit).
    assert (H : (List.length (Viewer.collect_open basename now file_status)
                 + List.length (Viewer.collect_closed basename now file_status)
                 + List.length (filter lacks_is_open file_status)
                 = List.length file_status)%nat).
    { clear Hlimit.
      induction file_status as [|[path st] rest IH]; simpl; [reflexivity|].
      unfold lacks_is_open at 1. simpl.
      destruct (Viewer.is_open st) as [[|]|]; simpl; lia. }
    unfold Viewer.show_open_files_table, len. lia.
  - intros path st Hin Hopen. unfold Viewer.show_open_files_table.
    apply collect_open_In. exists path, st. auto.
  - intros path st Hin Hclosed.
    apply shown_when_limit_allows; [exact Hlimit|].
    apply collect_closed_In. exists path, st. auto.
  - intros row Hrow. unfold Viewer.show_open_files_table in Hrow.
    apply (proj1 (collect_open_In _ _ _ _)) in Hrow. exact Hrow.
  - intros row Hrow.
    assert (Hc : In row (Viewer.collect_closed basename now file_status)).
    { unfold Viewer.show_closed_files_table in Hrow.
      destruct (Viewer.collect_closed basename now file_status) as [|r rest].
      - destruct Hrow.
      - apply slice_to_In in Hrow.
        apply (proj1 (sort_desc_In _ _)) in Hrow. exact Hrow. }
    apply (proj1 (collect_closed_In _ _ _ _)) in Hc. exact Hc.
Qed.

Lemma tables_split_entries_witness :
  len (Viewer.show_open_files_table (fun s => s) 50000
         (("no_key.xlsx",
           {| Viewer.is_open := None; Viewer.temp_files := None;
              Viewer.opened_at := None; Viewer.last_author := None |})
          :: Viewer.create_mock_data 50000))
  + len (Viewer.show_closed_files_table (fun s => s) 50000
           (("no_key.xlsx",
             {| Viewer.is_open := None; Viewer.temp_files := None;
                Viewer.opened_at := None; Viewer.last_author := None |})
            :: Viewer.create_mock_data 50000) 10)
  + len (filter lacks_is_open
           (("no_key.xlsx",
             {| Viewer.is_open := None; Viewer.temp_files := None;
                Viewer.opened_at := None; Viewer.last_author := None |})
            :: Viewer.create_mock_data 50000))
  = len (("no_key.xlsx",
          {| Viewer.is_open := None; Viewer.temp_files := None;
             Viewer.opened_at := None; Viewer.last_author := None |})
         :: Viewer.create_mock_data 50000).
Proof.
  apply (proj1 (tables_split_entries (fun s => s) 50000
                  (("no_key.xlsx",
                    {| Viewer.is_open := None; Viewer.temp_files := None;
                       Viewer.opened_at := None; Viewer.last_author := None |})
                   :: Viewer.create_mock_data 50000) 10
                  ltac:(vm_compute; discriminate))).
Defined.

(** X15. The closed-files table prints at most [limit] rows when [limit] is
    not negative: exactly the smaller of [limit] and the number of closed
    entries.  With a negative [limit] it prints as many rows as there are
    closed entries less the size of [limit], and none when that is not
    positive. *)
Theorem closed_table_row_count (basename : string -> string)
    (now : Viewer.datetime) (file_status : list (string * Viewer.status))
    (limit : Z) :
  len (Viewer.show_closed_files_table basename now file_status limit)
  = if 0 <=? limit
    then Z.min limit (len (Viewer.collect_closed basename now file_status))
    else Z.max 0 (len (Viewer.collect_closed basename now file_status) + limit).
Proof.
  unfold Viewer.show_closed_files_table.
  destruct (Viewer.collect_closed basename now file_status) as [|r rest] eqn:E.
  - unfold len; simpl. destruct (Z.leb_spec 0 limit); lia.
  - rewrite slice_to_length. unfold len. rewrite sort_desc_length. reflexivity.
Qed.

Lemma ltb_asym (a b : string) : String.ltb a b = true -> String.ltb b a = false.
Proof.
  unfold String.ltb. rewrite (String.compare_antisym a b).
  destruct (String.compare b a); simpl; intros H; try reflexivity; discriminate.
Qed.

Lemma insert_desc_sorted (row : list string) (sorted : list (list string)) :
  Sorted not_below sorted -> Sorted not_below (Viewer.insert_desc row sorted).
Proof.
  induction sorted as [|r rest IH]; intros Hs; simpl.
  - repeat constructor.
  - destruct (String.ltb (Viewer.key row) (Viewer.key r)) eqn:E.
    + inversion Hs as [|r' rest' Hrest Hhd]; subst.
      constructor; [apply IH; exact Hrest|].
      destruct rest as [|r2 rest2]; simpl.
      * constructor. unfold not_below. apply ltb_asym. exact E.
      * destruct (String.ltb (Viewer.key row) (Viewer.key r2)).
        -- inversion Hhd; subst. constructor. assumption.
        -- constructor. unfold not_below. apply ltb_asym. exact E.
    + constructor; [exact Hs|]. constructor. exact E.
Qed.

Lemma sort_desc_sorted (rows : list (list string)) :
  Sorted not_below (Viewer.sort_desc rows).
Proof.
  induction rows as [|r rest IH]; simpl; [constructor|].
  apply insert_desc_sorted. exact IH.
Qed.

Lemma firstn_sorted {A} (R : A -> A -> Prop) (n : nat) (l : list A) :
  Sorted R l -> Sorted R (firstn n l).
Proof.
  revert l. induction n as [|n IH]; intros [|a l] Hs; simpl; try constructor.
  - inversion Hs; subst. apply IH. assumption.
  - inversion Hs as [|a' l' Hl Hhd]; subst.
    destruct n; destruct l as [|b l]; simpl; try constructor.
    inversion Hhd; subst. assumption.
Qed.

Lemma insert_desc_perm (row : list string) (sorted : list (list string)) :
  Permutation (Viewer.insert_desc row sorted) (row :: sorted).
Proof.
  induction sorted as [|r rest IH]; simpl; [reflexivity|].
  destruct (String.ltb (Viewer.key row) (Viewer.key r)); [|reflexivity].
  rewrite IH. apply perm_swap.
Qed.

Lemma sort_desc_perm (rows : list (list string)) :
  Permutation (Viewer.sort_desc rows) rows.
Proof.
  induction rows as [|r rest IH]; simpl; [reflexivity|].
  rewrite insert_desc_perm. constructor. exact IH.
Qed.

(** X16. The rows of the closed-files table are in descending order of
    their opening-time text, each row being not below the next; and when
    [limit] is at least the number of closed entries the printed rows are a
    rearrangement of the collected rows, none lost and none repeated. *)
Theorem closed_table_sorted_by_opening_text (basename : string -> string)
    (now : Viewer.datetime) (file_status : list (string * Viewer.status))
    (limit : Z) :
  Sorted not_below
    (Viewer.show_closed_files_table basename now file_status limit)
  /\ (len (Viewer.collect_closed basename now file_status) <= limit ->
      Permutation
        (Viewer.show_closed_files_table basename now file_status limit)
        (Viewer.collect_closed basename now file_status)).
Proof.
  unfold Viewer.show_closed_files_table.
  destruct (Viewer.collect_closed basename now file_status) as [|r rest] eqn:E.
  - split; [constructor | intros _; reflexivity].
  - split.
    + unfold Viewer.slice_to. destruct (0 <=? limit);
        apply firstn_sorted; apply sort_desc_sorted.
    + intros Hlim. unfold Viewer.slice_to.
      destruct (Z.leb_spec 0 limit) as [H|H];
        [|unfold len in Hlim; simpl in Hlim; lia].
      rewrite firstn_all2.
      * apply sort_desc_perm.
      * rewrite sort_desc_length. unfold len in Hlim. lia.
Qed.

Lemma closed_table_sorted_by_opening_text_witness :
  Sorted not_below
    (Viewer.show_closed_files_table (fun s => s) 50000
       (Viewer.create_mock_data 50000) 10)
  /\ Permutation
       (Viewer.show_closed_files_table (fun s => s) 50000
          (Viewer.create_mock_data 50000) 10)
       (Viewer.collect_closed (fun s => s) 50000
          (Viewer.create_mock_data 50000)).
Proof.
  split.
  - apply (proj1 (closed_table_sorted_by_opening_text (fun s => s) 50000
                    (Viewer.create_mock_data 50000) 10)).
  - apply (proj2 (closed_table_sorted_by_opening_text (fun s => s) 50000
                    (Viewer.create_mock_data 50000) 10)).
    vm_compute. discriminate.
Defined.

(** ** Durations and times of day *)

(** X17. Below one hour [format_duration] shows the duration exactly, as
    minutes and seconds that add up to it; from one hour on it shows hours
    and minutes only, so two durations within the same minute print the
    same text. *)
Theorem format_duration_precision :
  (forall s : Z, 60 <= s < 3600 ->
      exists m r,
        Viewer.format_duration s
        = (Viewer.str m ++ "分" ++ Viewer.str r ++ "秒")%string
        /\ s = 60 * m + r /\ 1 <= m <= 59 /\ 0 <= r <= 59)
  /\ (forall s s' : Z, 3600 <= s -> 3600 <= s' -> s / 60 = s' / 60 ->
      Viewer.format_duration s = Viewer.format_duration s').
Proof.
  split.
  - intros s Hs. exists (s / 60), (s mod 60).
    unfold Viewer.format_duration.
    destruct (Z.ltb_spec s 60); [lia|].
    destruct (Z.ltb_spec s 3600); [|lia].
    split; [reflexivity|].
    pose proof (Z.div_mod s 60 ltac:(lia)).
    pose proof (Z.mod_pos_bound s 60 ltac:(lia)).
    assert (s / 60 < 60) by (apply Z.div_lt_upper_bound; lia).
    assert (1 <= s / 60) by (apply Z.div_le_lower_bound; lia).
    lia.
  - intros s s' Hs Hs' Heq.
    unfold Viewer.format_duration.
    destruct (Z.ltb_spec s 60); [lia|].
    destruct (Z.ltb_spec s' 60); [lia|].
    destruct (Z.ltb_spec s 3600); [lia|].
    destruct (Z.ltb_spec s' 3600); [lia|].
    assert (E1 : s / 3600 = s' / 3600).
    { replace 3600 with (60 * 60) by reflexivity.
      rewrite <- !Z.div_div by lia. rewrite Heq. reflexivity. }
    assert (E2 : (s mod 3600) / 60 = (s' mod 3600) / 60).
    { replace 3600 with (60 * 60) by reflexivity.
      rewrite !Z.rem_mul_r by lia.
      rewrite !(Z.mul_comm 60 (_ mod 60)), !Z.div_add by lia.
      rewrite !(Z.div_small (_ mod 60) 60) by (apply Z.mod_pos_bound; lia).
      rewrite Heq. reflexivity. }
    rewrite E1, E2. reflexivity.
Qed.

Lemma format_duration_precision_witness :
  (exists m r,
      Viewer.format_duration 1200
      = (Viewer.str m ++ "分" ++ Viewer.str r ++ "秒")%string
      /\ 1200 = 60 * m + r /\ 1 <= m <= 59 /\ 0 <= r <= 59)
  /\ Viewer.format_duration 7200 = Viewer.format_duration 7259.
Proof.
  split.
  - apply (proj1 format_duration_precision 1200). lia.
  - apply (proj2 format_duration_precision 7200 7259); try lia. reflexivity.
Defined.

Lemma length_append (a b : string) :
  String.length (a ++ b) = (String.length a + String.length b)%nat.
Proof. induction a as [|c a IH]; simpl; [reflexivity | rewrite IH; reflexivity]. Qed.

Lemma two_digits_length (n : Z) :
  0 <= n < 100 -> String.length (Viewer.two_digits n) = 2%nat.
Proof.
  intros Hn.
  assert (H : forall k : nat, (k < 100)%nat ->
                String.length (Viewer.two_digits (Z.of_nat k)) = 2%nat).
  { intros k Hk. do 100 (destruct k as [|k]; [reflexivity|]). lia. }
  rewrite <- (Z2Nat.id n) by lia. apply H. lia.
Qed.

(** X18. The time columns always show eight characters, [HH:MM:SS], and
    only the time of day: moments a whole number of days apart print the
    same text, so the tables (and the order of the closed-files table)
    cannot tell one day from another. *)
Theorem strftime_hms_time_of_day (d k : Z) :
  String.length (Viewer.strftime_hms d) = 8%nat
  /\ Viewer.strftime_hms (d + 86400 * k) = Viewer.strftime_hms d.
Proof.
  split.
  - unfold Viewer.strftime_hms.
    pose proof (Z.mod_pos_bound d 86400 ltac:(lia)) as Hb.
    set (t := d mod 86400) in *.
    rewrite !length_append. simpl.
    rewrite !two_digits_length; [reflexivity| | |];
      clearbody t; Z.div_mod_to_equations; lia.
  - unfold Viewer.strftime_hms.
    rewrite (Z.mul_comm 86400 k), Z.mod_add by lia. reflexivity.
Qed.

(** ** The user summary *)

Lemma bump_keys_In (author : string) (opened : bool) (k : string)
    (stats : list (string * Viewer.user_stat)) :
  In k (map fst (Viewer.bump author opened stats))
  <-> k = author \/ In k (map fst stats).
Proof.
  induction stats as [|[a s] rest IH]; simpl.
  - intuition congruence.
  - destruct (String.eqb_spec author a) as [->|Hne]; simpl.
    + intuition congruence.
    + rewrite IH. intuition congruence.
Qed.

Lemma bump_nodup (author : string) (opened : bool)
    (stats : list (string * Viewer.user_stat)) :
  NoDup (map fst stats) -> NoDup (map fst (Viewer.bump author opened stats)).
Proof.
  induction stats as [|[a s] rest IH]; simpl; intros Hnd.
  - repeat constructor. intros [].
  - inversion Hnd as [|a' l Hnotin Hrest]; subst.
    destruct (String.eqb_spec author a) as [->|Hne]; simpl.
    + constructor; assumption.
    + constructor; [|apply IH; exact Hrest].
      intros Hin. apply bump_keys_In in Hin. destruct Hin as [->|Hin]; auto.
Qed.

Lemma bump_sound (author : string) (opened : bool)
    (stats : list (string * Viewer.user_stat)) :
  Forall sound_stat stats -> Forall sound_stat (Viewer.bump author opened stats).
Proof.
  induction stats as [|[a s] rest IH]; simpl; intros Hs.
  - constructor; [|constructor]. unfold sound_stat; simpl. destruct opened; lia.
  - inversion Hs as [|e l Hhd Hrest]; subst.
    destruct (String.eqb author a); constructor; auto.
    unfold sound_stat in *; simpl in *. destruct opened; lia.
Qed.

Lemma bump_sums (author : string) (opened : bool)
    (stats : list (string * Viewer.user_stat)) :
  sum_total (Viewer.bump author opened stats) = sum_total stats + 1
  /\ sum_open (Viewer.bump author opened stats)
     = sum_open stats + (if opened then 1 else 0).
Proof.
  induction stats as [|[a s] rest [IH1 IH2]]; simpl.
  - destruct opened; split; reflexivity.
  - destruct (String.eqb author a); simpl.
    + destruct opened; split; lia.
    + rewrite IH1, IH2. destruct opened; split; lia.
Qed.

Lemma user_stats_from (file_status : list (string * Viewer.status)) :
  forall acc : list (string * Viewer.user_stat),
    Forall sound_stat acc ->
    NoDup (map fst acc) ->
    let stats :=
      fold_left
        (fun stats entry =>
           Viewer.bump (Viewer.get (Viewer.last_author (snd entry)) "未知")
             (Viewer.get (Viewer.is_open (snd entry)) false) stats)
        file_status acc in
    Forall sound_stat stats
    /\ NoDup (map fst stats)
    /\ sum_total stats = sum_total acc + len file_status
    /\ sum_open stats = sum_open acc + len (filter shown_open file_status).
Proof.
  induction file_status as [|[path st] rest IH]; intros acc Hs Hnd; simpl.
  - unfold len; simpl. repeat split; try assumption; lia.
  - set (author := Viewer.get (Viewer.last_author st) "未知").
    set (opened := Viewer.get (Viewer.is_open st) false).
    destruct (IH (Viewer.bump author opened acc)
                (bump_sound author opened acc Hs)
                (bump_nodup author opened acc Hnd)) as [H1 [H2 [H3 H4]]].
    destruct (bump_sums author opened acc) as [B1 B2].
    repeat split; try assumption.
    + rewrite H3, B1. unfold len; simpl List.length. lia.
    + rewrite H4, B2. unfold shown_open at 2. simpl. fold opened.
      destruct opened; unfold len; simpl List.length; lia.
Qed.

(** X19. The statistics of the user summary are consistent: every author
    has one record, with at least one file and no more open files than
    files (so the fallback text for an author without files is never
    used), the file counts add up to the number of entries, and the open
    counts add up to the number of entries marked open. *)
Theorem user_stats_consistent (file_status : list (string * Viewer.status)) :
  Forall sound_stat (Viewer.user_stats file_status)
  /\ NoDup (map fst (Viewer.user_stats file_status))
  /\ sum_total (Viewer.user_stats file_status) = len file_status
  /\ sum_open (Viewer.user_stats file_status)
     = len (filter shown_open file_status).
Proof.
  unfold Viewer.user_stats.
  destruct (user_stats_from file_status [] (Forall_nil _) (NoDup_nil _))
    as [H1 [H2 [H3 H4]]].
  simpl in H3, H4. repeat split; assumption.
Qed.

(** ** Table borders and rows *)

Section PrintingFacts.

Variable char : Type.
Variables space bar dash : char.
Variables corner_tl corner_tr corner_bl corner_br : char.
Variables tee_top tee_bottom tee_left tee_right cross : char.

Lemma len_cons {A} (a : A) (l : list A) : len (a :: l) = 1 + len l.
Proof. unfold len. simpl List.length. lia. Qed.

Lemma len_map {A B} (f : A -> B) (l : list A) : len (map f l) = len l.
Proof. unfold len. rewrite length_map. reflexivity. Qed.

Lemma len_times (c : char) (n : Z) : len (Viewer.times char c n) = Z.max 0 n.
Proof. unfold len, Viewer.times. rewrite repeat_length. lia. Qed.

Lemma len_join (sep : char) (parts : list (list char)) :
  len (Viewer.join char sep parts) = sum_len parts + Z.max 0 (len parts - 1).
Proof.
  induction parts as [|p rest IH]; [reflexivity|].
  destruct rest as [|q rest].
  - simpl. unfold len; simpl List.length. lia.
  - change (Viewer.join char sep (p :: q :: rest))
      with (p ++ sep :: Viewer.join char sep (q :: rest)).
    rewrite len_app, len_cons, IH.
    change (sum_len (p :: q :: rest)) with (len p + sum_len (q :: rest)).
    rewrite !len_cons. pose proof (len_nonneg rest). lia.
Qed.

Lemma sum_len_dashes (widths : list Z) :
  sum_len (map (Viewer.times char dash) widths) = sum_widths widths.
Proof.
  induction widths as [|w rest IH]; [reflexivity|].
  simpl. rewrite IH, len_times. lia.
Qed.

Lemma len_border (l m r : char) (widths : list Z) :
  len (Viewer.border char dash l m r widths)
  = 2 + sum_widths widths + Z.max 0 (len widths - 1).
Proof.
  unfold Viewer.border.
  rewrite len_cons, len_app, len_join, sum_len_dashes, len_map, len_cons.
  change (len (@nil char)) with 0. lia.
Qed.

Lemma len_slice_to (k : Z) (v : list char) :
  0 <= k -> len (Viewer.slice_to k v) <= k.
Proof.
  intros Hk. rewrite slice_to_length.
  destruct (Z.leb_spec 0 k); lia.
Qed.

Lemma len_ljust (k : Z) (s : list char) :
  len (Viewer.ljust char space k s) = Z.max k (len s).
Proof. unfold Viewer.ljust. rewrite len_app, len_times. lia. Qed.

Lemma len_center (k : Z) (s : list char) :
  len (Viewer.center char space k s) = Z.max k (len s).
Proof.
  unfold Viewer.center.
  destruct (Z.leb_spec (k - len s) 0) as [H|H]; [lia|].
  rewrite !len_app, !len_times.
  destruct (Z.odd (k - len s) && Z.odd k); Z.div_mod_to_equations; lia.
Qed.

Lemma cells_aligned (pad : Z -> list char -> list char)
    (Hpad : forall k s, len (pad k s) = Z.max k (len s)) :
  forall (values : list (list char)) (widths : list Z),
    List.length values = List.length widths ->
    Forall (fun w => 2 <= w) widths ->
    exists parts,
      Viewer.cells char space pad values widths = Some parts
      /\ sum_len parts = sum_widths widths
      /\ len parts = len widths.
Proof.
  induction values as [|v vs IH]; intros [|w ws] Hlen Hw; simpl in Hlen;
    try discriminate.
  - exists []. repeat split.
  - inversion Hw as [|w' ws' Hw1 Hws]; subst.
    destruct (IH ws (eq_add_S _ _ Hlen) Hws) as [parts [Hc [Hs Hl]]].
    simpl. rewrite Hc. eexists. split; [reflexivity|]. split.
    + match goal with
      | |- sum_len (?x :: _) = _ =>
          change (sum_len (x :: parts)) with (len x + sum_len parts)
      end.
      change (sum_widths (w :: ws)) with (Z.max w 0 + sum_widths ws).
      rewrite Hs, len_cons, len_app, Hpad, len_cons.
      change (len (@nil char)) with 0.
      pose proof (len_slice_to (w - 2) v ltac:(lia)). lia.
    + rewrite !len_cons, Hl. reflexivity.
Qed.

Lemma cells_none (pad : Z -> list char -> list char) :
  forall (values : list (list char)) (widths : list Z),
    Viewer.cells char space pad values widths = None
    <-> (List.length widths < List.length values)%nat.
Proof.
  induction values as [|v vs IH]; intros [|w ws]; simpl.
  - split; [discriminate | lia].
  - split; [discriminate | lia].
  - split; [lia | reflexivity].
  - specialize (IH ws).
    destruct (Viewer.cells char space pad vs ws) as [rest|].
    + split; [discriminate|]. intros H.
      assert (Hn : Some rest = None) by (apply IH; lia). discriminate.
    + split; [|reflexivity]. intros _.
      pose proof (proj1 IH eq_refl). lia.
Qed.

Lemma len_line (parts : list (list char)) :
  len (bar :: Viewer.join char bar parts ++ [bar])
  = 2 + sum_len parts + Z.max 0 (len parts - 1).
Proof.
  rewrite len_cons, len_app, len_join, len_cons.
  change (len (@nil char)) with 0. lia.
Qed.

(** X20. The lines of a table line up: when a row (or the header) has as
    many cells as there are widths and every width is at least 2, the line
    printed for it has exactly as many characters as the separator, the
    top border and the footer, each cell being cut or padded to its
    width. *)
Theorem table_lines_align (values : list (list char)) (widths : list Z)
    (Hcount : List.length values = List.length widths)
    (Hwide : Forall (fun w => 2 <= w) widths) :
  (exists line,
      Viewer.print_table_row char space bar values widths = Some line
      /\ len line
         = len (Viewer.print_table_separator char dash tee_left tee_right
                  cross widths))
  /\ (exists top middle bottom,
      Viewer.print_table_header char space bar dash corner_tl corner_tr
        tee_top tee_left tee_right cross values widths
      = Some [top; middle; bottom]
      /\ len top = len bottom /\ len middle = len bottom)
  /\ len (Viewer.print_table_footer char dash corner_bl corner_br tee_bottom
            widths)
     = len (Viewer.print_table_separator char dash tee_left tee_right cross
              widths).
Proof.
  unfold Viewer.print_table_row, Viewer.print_table_header,
    Viewer.print_table_separator, Viewer.print_table_footer.
  split; [|split].
  - destruct (cells_aligned (Viewer.ljust char space) len_ljust values widths
                Hcount Hwide) as [parts [Hc [Hs Hl]]].
    rewrite Hc. eexists. split; [reflexivity|].
    rewrite len_line, len_border. unfold Viewer.text in *.
    rewrite Hs, Hl. reflexivity.
  - destruct (cells_aligned (Viewer.center char space) len_center values widths
                Hcount Hwide) as [parts [Hc [Hs Hl]]].
    rewrite Hc. do 3 eexists. split; [reflexivity|].
    rewrite len_line, !len_border. unfold Viewer.text in *.
    rewrite Hs, Hl. split; reflexivity.
  - rewrite !len_border. reflexivity.
Qed.

(** X21. A row with more cells than there are widths is not printed: the
    lookup of the width fails ([IndexError]), for the header as well; a row
    with fewer cells than widths is printed, shorter than the borders,
    without any error. *)
Theorem table_row_fails_iff_too_many_cells (values : list (list char))
    (widths : list Z) :
  (Viewer.print_table_row char space bar values widths = None
   <-> (List.length widths < List.length values)%nat)
  /\ (Viewer.print_table_header char space bar dash corner_tl corner_tr
        tee_top tee_left tee_right cross values widths = None
      <-> (List.length widths < List.length values)%nat).
Proof.
  unfold Viewer.print_table_row, Viewer.print_table_header.
  split.
  - rewrite <- (cells_none (Viewer.ljust char space) values widths).
    destruct (Viewer.cells char space (Viewer.ljust char space) values widths);
      split; intros H; try discriminate; reflexivity.
  - rewrite <- (cells_none (Viewer.center char space) values widths).
    destruct (Viewer.cells char space (Viewer.center char space) values widths);
      split; intros H; try discriminate; reflexivity.
Qed.

End PrintingFacts.

Lemma table_lines_align_witness :
  (exists line,
      Viewer.print_table_row Z 32 124 [[65; 66; 67; 68; 69]; [70]] [5; 4]
      = Some line
      /\ len line = len (Viewer.print_table_separator Z 45 91 93 43 [5; 4]))
  /\ (exists top middle bottom,
      Viewer.print_table_header Z 32 124 45 47 92 84 91 93 43
        [[65; 66; 67; 68; 69]; [70]] [5; 4]
      = Some [top; middle; bottom]
      /\ len top = len bottom /\ len middle = len bottom)
  /\ len (Viewer.print_table_footer Z 45 92 47 94 [5; 4])
     = len (Viewer.print_table_separator Z 45 91 93 43 [5; 4]).
Proof.
  apply (table_lines_align Z 32 124 45 47 92 92 47 84 94 91 93 43
           [[65; 66; 67; 68; 69]; [70]] [5; 4]).
  - reflexivity.
  - repeat constructor; lia.
Defined.

(** ** Interrupts during the reading of the worker's output *)


